(** * PushMyButton: the IoT button Lambda of dispatch-iot-sample

    A shallow embedding of [pushmybutton.py].  Python values are a small
    inductive type, the exceptions the script can raise are an error type,
    and the outbound HTTP calls and the clock are threaded through a state
    monad that also records every request the script issues, in order. *)

From Stdlib Require Import ZArith List String Ascii Bool Lia.
From Stdlib Require Import Floats.SpecFloat.
Import ListNotations.
Local Open Scope string_scope.
Local Open Scope Z_scope.

(** ** Python values *)

Set Warnings "-register-all".

(** The values the script handles: what [json] parsing produces, which is
    also what it puts in request payloads.  A [dict] keeps its insertion
    order, as Python's does. *)
Inductive pyval : Type :=
| PyNone
| PyBool (b : bool)
| PyInt (n : Z)
| PyFloat (x : spec_float)
| PyStr (s : string)
| PyList (l : list pyval)
| PyDict (d : list (string * pyval)).

(** The exceptions of the script.  [RequestException] is what [requests]
    raises when the call itself fails, [ValueError] what [Response.json]
    raises on a body that is not JSON. *)
Inductive exn : Type :=
| KeyError (k : string)
| TypeError
| ValueError
| RequestException.

Inductive res (A : Type) : Type :=
| Ok (a : A)
| Raise (e : exn).
Arguments Ok {A} a.
Arguments Raise {A} e.

Definition rbind {A B} (r : res A) (k : A -> res B) : res B :=
  match r with
  | Ok a => k a
  | Raise e => Raise e
  end.

(** [bool(v)]: what [if v], [not v] and [v and w] test. *)
Definition truthy (v : pyval) : bool :=
  match v with
  | PyNone => false
  | PyBool b => b
  | PyInt n => negb (n =? 0)
  | PyFloat (S754_zero _) => false
  | PyFloat _ => true
  | PyStr s => negb (String.eqb s "")
  | PyList l => match l with [] => false | _ :: _ => true end
  | PyDict d => match d with [] => false | _ :: _ => true end
  end.

Fixpoint dict_get (d : list (string * pyval)) (k : string) : option pyval :=
  match d with
  | [] => None
  | (k', v) :: d' => if String.eqb k' k then Some v else dict_get d' k
  end.

(** [d[k] = v]: the value is replaced in place when the key is there, and
    the pair is added at the end when it is not. *)
Fixpoint dict_set (d : list (string * pyval)) (k : string) (v : pyval)
  : list (string * pyval) :=
  match d with
  | [] => [(k, v)]
  | (k', v') :: d' =>
      if String.eqb k' k then (k', v) :: d' else (k', v') :: dict_set d' k v
  end.

(** [{**base, **data}]: the pairs of [data] are set one by one, in order. *)
Definition dict_merge (base data : list (string * pyval))
  : list (string * pyval) :=
  fold_left (fun d kv => dict_set d (fst kv) (snd kv)) data base.

(** [v[k]] for a string key [k]: only a dict can be subscripted with it. *)
Definition subscript (v : pyval) (k : string) : res pyval :=
  match v with
  | PyDict d =>
      match dict_get d k with
      | Some x => Ok x
      | None => Raise (KeyError k)
      end
  | _ => Raise TypeError
  end.

(** [len(v)] *)
Definition py_len (v : pyval) : res Z :=
  match v with
  | PyStr s => Ok (Z.of_nat (String.length s))
  | PyList l => Ok (Z.of_nat (List.length l))
  | PyDict d => Ok (Z.of_nat (List.length d))
  | _ => Raise TypeError
  end.

(** [isinstance(v, list)] *)
Definition is_list (v : pyval) : bool :=
  match v with
  | PyList _ => true
  | _ => false
  end.

(** ** Requests and responses *)

Inductive method : Type := GET | POST.

(** One outbound call: [requests.get(url, payload)] or
    [requests.post(url, payload)]. *)
Record Request : Type := mkRequest {
  meth : method;
  url : string;
  payload : list (string * pyval)
}.

(** What comes back: a body that parses as JSON, or one that does not. *)
Inductive Response : Type :=
| Body (j : pyval)
| NotJson.

Definition json (r : Response) : res pyval :=
  match r with
  | Body j => Ok j
  | NotJson => Raise ValueError
  end.

Definition is_write (r : Request) : bool :=
  match meth r with POST => true | GET => false end.

Definition is_read (r : Request) : bool :=
  match meth r with GET => true | POST => false end.

Definition writes (l : list Request) : list Request := filter is_write l.
Definition reads (l : list Request) : list Request := filter is_read l.

(** ** Configuration *)

Definition URL : string := "https://acme.leading2lean.com/api/1.0/".
Definition AUTH : string := "abc123".
Definition SITEID : string := "1".
Definition TIMEZONE : string := "US/Central".

(** ** Response normalization *)

(** [finishRequest(result, limit)].  The [and] of line 175 evaluates
    [resultJson['data']] only when [resultJson['success']] is truthy, and
    [len] is applied before the [isinstance] test. *)
Definition finishRequest (result : Response) (limit : Z) : res pyval :=
  rbind (json result) (fun resultJson =>
  rbind (subscript resultJson "success") (fun success =>
  if truthy success then
    rbind (subscript resultJson "data") (fun data =>
    if truthy data then
      if limit =? 1 then
        rbind (py_len data) (fun n =>
        if (0 <? n) && is_list data then
          match data with
          | PyList (x :: _) => Ok x
          | _ => Raise TypeError
          end
        else Ok data)
      else Ok data
    else Ok PyNone)
  else Ok PyNone)).

(** ** The static serial-number table *)

Definition machineCodeLineMatrix : list (string * pyval) :=
  [ ("BUTTON-01-SERIAL", PyStr "GreenMachine");
    ("BUTTON-02-SERIAL", PyStr "BlueMachine");
    ("BUTTON-03-SERIAL", PyStr "YellowMachine");
    ("BUTTON-04-SERIAL", PyStr "OrangeMachine") ].

(** [getThingData(serialNumber)] *)
Definition getThingData (serialNumber : string) : res pyval :=
  rbind (subscript (PyDict machineCodeLineMatrix) serialNumber) (fun code =>
  Ok (PyDict [("machineCode", code)])).

(** ** The button event *)

(** The event the IoT button sends; both fields are strings. *)
Record ButtonEvent : Type := mkEvent {
  serialNumber : string;
  clickType : string
}.

(** ** The script *)

Section Program.

(** The world outside the script.  [http] is the API server behind
    [requests]: it answers a request or the call fails ([None]), and it
    may change with every call.  [now] is the clock, read in [TIMEZONE]
    as the string [strftime] formats; reading it may change it too. *)
Variable St : Type.
Variable http : Request -> St -> option Response * St.
Variable now : St -> string * St.

(** A run ends with a value or an exception, the state of the world
    after it, and the requests it issued, oldest first. *)
Record outcome (A : Type) : Type := mkOutcome {
  value : res A;
  final : St;
  calls : list Request
}.
Arguments mkOutcome {A} value final calls.
Arguments value {A} o.
Arguments final {A} o.
Arguments calls {A} o.

Definition M (A : Type) : Type := St -> outcome A.

Definition ret {A} (a : A) : M A := fun s => mkOutcome (Ok a) s [].

Definition lift {A} (r : res A) : M A := fun s => mkOutcome r s [].

(** Sequencing: an exception stops the run, and the calls issued before
    it stay issued. *)
Definition bind {A B} (m : M A) (k : A -> M B) : M B := fun s =>
  let o := m s in
  match value o with
  | Ok a =>
      let o' := k a (final o) in
      mkOutcome (value o') (final o') (calls o ++ calls o')
  | Raise e => mkOutcome (Raise e) (final o) (calls o)
  end.

Notation "x <- m ;; k" := (bind m (fun x => k))
  (at level 61, m at next level, right associativity).

(** [requests.get] and [requests.post]: the request goes out and is
    recorded, whatever comes back. *)
Definition send (r : Request) : M Response := fun s =>
  let (resp, s') := http r s in
  mkOutcome
    (match resp with Some x => Ok x | None => Raise RequestException end)
    s' [r].

(** [doPost(url, data, limit = 1)] *)
Definition doPost (url : string) (data : list (string * pyval)) (limit : Z)
  : M pyval :=
  result <- send (mkRequest POST (URL ++ url)
              (dict_merge [("auth", PyStr AUTH); ("site", PyStr SITEID);
                           ("limit", PyInt limit)] data)) ;;
  lift (finishRequest result limit).

(** [doGet(url, data, limit = 1)] *)
Definition doGet (url : string) (data : list (string * pyval)) (limit : Z)
  : M pyval :=
  result <- send (mkRequest GET (URL ++ url)
              (dict_merge [("auth", PyStr AUTH); ("site", PyStr SITEID);
                           ("limit", PyInt limit)] data)) ;;
  lift (finishRequest result limit).

(** [getCurrentDateTimeStr()]: it issues no call and cannot raise. *)
Definition getCurrentDateTimeStr : M pyval := fun s =>
  let (t, s') := now s in mkOutcome (Ok (PyStr t)) s' [].

Definition getMachineInfoByCode (machineCode : pyval) : M pyval :=
  doGet "machines/" [("code", machineCode)] 1.

Definition getCurrentOrderByLineCode (lineCode : pyval) : M pyval :=
  doGet "buildsequence/get_current_order_on_line/" [("linecode", lineCode)] 1.

Definition getLineInfoByCode (lineCode : pyval) : M pyval :=
  doGet "lines/" [("code", lineCode)] 1.

Definition getNextOrderByLineCode (lineCode : pyval) : M pyval :=
  line <- getLineInfoByCode lineCode ;;
  if negb (truthy line) then ret PyNone
  else
    id <- lift (subscript line "id") ;;
    doGet "buildsequence/"
      [("line", id);
       ("order_by", PyStr "-schedule_start_date");
       ("status__gte", PyStr "2");
       ("status__lte", PyStr "6")] 1.

Definition getOrderByLineCode (lineCode : pyval) : M pyval :=
  order <- getCurrentOrderByLineCode lineCode ;;
  order <- (if negb (truthy order) then getNextOrderByLineCode lineCode
            else ret order) ;;
  if negb (truthy order) then ret PyNone else ret order.

Definition getProductInfoById (productId : pyval) : M pyval :=
  doGet "productcomponents/" [("id", productId)] 1.

(** The result of a handler that found no order. *)
Definition no_order_found : pyval :=
  PyDict [("success", PyBool false); ("error", PyStr "No order found")].

(** The result of a handler that got to the end. *)
Definition success_result (result : pyval) : pyval :=
  PyDict [("success", PyBool true); ("result", result)].

Definition executeIncrementProductCountByMachineCode (thingData : pyval)
  : M pyval :=
  machineCode <- lift (subscript thingData "machineCode") ;;
  machineInfo <- getMachineInfoByCode machineCode ;;
  linecode <- lift (subscript machineInfo "linecode") ;;
  order <- getOrderByLineCode linecode ;;
  if negb (truthy order) then ret no_order_found
  else
    productId <- lift (subscript order "product") ;;
    product <- getProductInfoById productId ;;
    linecode <- lift (subscript machineInfo "linecode") ;;
    start <- getCurrentDateTimeStr ;;
    end_ <- getCurrentDateTimeStr ;;
    productcode <- lift (subscript product "code") ;;
    result <- doPost "pitchdetails/record_details/"
                [("linecode", linecode);
                 ("start", start);
                 ("end", end_);
                 ("productcode", productcode);
                 ("actual", PyInt 1)] 1 ;;
    ret (success_result result).

Definition executeIncrementScrapCountByMachineCode (thingData : pyval)
  : M pyval :=
  machineCode <- lift (subscript thingData "machineCode") ;;
  machineInfo <- getMachineInfoByCode machineCode ;;
  linecode <- lift (subscript machineInfo "linecode") ;;
  order <- getOrderByLineCode linecode ;;
  if negb (truthy order) then ret no_order_found
  else
    productId <- lift (subscript order "product") ;;
    product <- getProductInfoById productId ;;
    linecode <- lift (subscript machineInfo "linecode") ;;
    start <- getCurrentDateTimeStr ;;
    end_ <- getCurrentDateTimeStr ;;
    productcode <- lift (subscript product "code") ;;
    result <- doPost "pitchdetails/record_details/"
                [("linecode", linecode);
                 ("start", start);
                 ("end", end_);
                 ("productcode", productcode);
                 ("scrap", PyInt 1)] 1 ;;
    ret (success_result result).

Definition executeIncrementMachineCycleCountByMachineCode (thingData : pyval)
  : M pyval :=
  code <- lift (subscript thingData "machineCode") ;;
  result <- doPost "machines/increment_cycle_count/"
              [("code", code);
               ("cyclecount", PyInt 1);
               ("skip_lastupdated", PyInt 1)] 1 ;;
  ret (success_result result).

Definition executeLaunchCodeRedDispatchByMachineCode (thingData : pyval)
  : M pyval :=
  machinecode <- lift (subscript thingData "machineCode") ;;
  result <- doPost "dispatches/open/"
              [("dispatchtypecode", PyStr "Code Red");
               ("description", PyStr "Launched by IoT button");
               ("machinecode", machinecode);
               ("tradecode", PyStr "Mechanic");
               ("user", PyStr "DEMOAPI")] 1 ;;
  ret (success_result result).

(** The [methods] table of [lambda_handler]. *)
Definition methods : list (string * (pyval -> M pyval)) :=
  [ ("SINGLE", executeIncrementProductCountByMachineCode);
    ("DOUBLE", executeIncrementScrapCountByMachineCode);
    ("LONG", executeLaunchCodeRedDispatchByMachineCode) ].

Fixpoint methods_get (t : list (string * (pyval -> M pyval))) (k : string)
  : res (pyval -> M pyval) :=
  match t with
  | [] => Raise (KeyError k)
  | (k', f) :: t' => if String.eqb k' k then Ok f else methods_get t' k
  end.

(** The response of the router. *)
Definition response (event : ButtonEvent) : pyval :=
  PyDict [("statusCode", PyInt 200);
          ("body", PyStr (clickType event ++ " event run for button "
                          ++ serialNumber event))].

(** [lambda_handler(event, context)].  The [context] is not used, and the
    [print] writes to the log of the platform only. *)
Definition lambda_handler (event : ButtonEvent) : M pyval :=
  thingData <- lift (getThingData (serialNumber event)) ;;
  method_ <- lift (methods_get methods (clickType event)) ;;
  _ <- method_ thingData ;;
  ret (response event).

(** [m] issues at most [r] reads and [w] writes, whatever the world. *)
Definition issues_at_most {A} (r w : nat) (m : M A) : Prop :=
  forall s,
    (List.length (reads (calls (m s))) <= r)%nat /\
    (List.length (writes (calls (m s))) <= w)%nat.

End Program.

Arguments mkOutcome {St A} value final calls.
Arguments value {St A} o.
Arguments final {St A} o.
Arguments calls {St A} o.
Arguments ret {St A} a s.
Arguments lift {St A} r s.
Arguments bind {St A B} m k s.
Arguments send {St} http r s.
Arguments doPost {St} http url data limit s.
Arguments doGet {St} http url data limit s.
Arguments getCurrentDateTimeStr {St} now s.
Arguments getMachineInfoByCode {St} http machineCode s.
Arguments getCurrentOrderByLineCode {St} http lineCode s.
Arguments getLineInfoByCode {St} http lineCode s.
Arguments getNextOrderByLineCode {St} http lineCode s.
Arguments getOrderByLineCode {St} http lineCode s.
Arguments getProductInfoById {St} http productId s.
Arguments executeIncrementProductCountByMachineCode {St} http now thingData s.
Arguments executeIncrementScrapCountByMachineCode {St} http now thingData s.
Arguments executeIncrementMachineCycleCountByMachineCode {St} http thingData s.
Arguments executeLaunchCodeRedDispatchByMachineCode {St} http thingData s.
Arguments methods {St} http now.
Arguments methods_get {St} t k.
Arguments lambda_handler {St} http now event s.
Arguments issues_at_most {St A} r w m.

(** ** The requests the script is expected to issue *)

(** The write of the two counting handlers: [metric] is ["actual"] or
    ["scrap"]. *)
Definition record_details (linecode start end_ productcode : pyval)
  (metric : string) : Request :=
  mkRequest POST
    "https://acme.leading2lean.com/api/1.0/pitchdetails/record_details/"
    [("auth", PyStr "abc123"); ("site", PyStr "1"); ("limit", PyInt 1);
     ("linecode", linecode); ("start", start); ("end", end_);
     ("productcode", productcode); (metric, PyInt 1)].

(** The write of the long click. *)
Definition open_dispatch (machinecode : pyval) : Request :=
  mkRequest POST
    "https://acme.leading2lean.com/api/1.0/dispatches/open/"
    [("auth", PyStr "abc123"); ("site", PyStr "1"); ("limit", PyInt 1);
     ("dispatchtypecode", PyStr "Code Red");
     ("description", PyStr "Launched by IoT button");
     ("machinecode", machinecode);
     ("tradecode", PyStr "Mechanic");
     ("user", PyStr "DEMOAPI")].

(** The three reads of order resolution. *)
Definition current_order_query (lineCode : pyval) : Request :=
  mkRequest GET
    "https://acme.leading2lean.com/api/1.0/buildsequence/get_current_order_on_line/"
    [("auth", PyStr "abc123"); ("site", PyStr "1"); ("limit", PyInt 1);
     ("linecode", lineCode)].

Definition line_query (lineCode : pyval) : Request :=
  mkRequest GET
    "https://acme.leading2lean.com/api/1.0/lines/"
    [("auth", PyStr "abc123"); ("site", PyStr "1"); ("limit", PyInt 1);
     ("code", lineCode)].

Definition buildsequence_query (lineId : pyval) : Request :=
  mkRequest GET
    "https://acme.leading2lean.com/api/1.0/buildsequence/"
    [("auth", PyStr "abc123"); ("site", PyStr "1"); ("limit", PyInt 1);
     ("line", lineId);
     ("order_by", PyStr "-schedule_start_date");
     ("status__gte", PyStr "2");
     ("status__lte", PyStr "6")].

(** ** Sample worlds *)

(** A server that answers by the path of the request and fails on a path
    it does not know; the state counts the calls and the clock reads. *)
Fixpoint answer (t : list (string * Response)) (u : string)
  : option Response :=
  match t with
  | [] => None
  | (path, r) :: t' =>
      if String.eqb (URL ++ path) u then Some r else answer t' u
  end.

Definition table_http (t : list (string * Response))
  : Request -> nat -> option Response * nat :=
  fun r n => (answer t (url r), S n).

(** A clock that shows the state in the seconds. *)
Definition sample_now (n : nat) : string * nat :=
  ("2026-11-04 12:00:0"
     ++ String (ascii_of_nat (48 + Nat.modulo n 10)) EmptyString, S n).

Definition found (data : list pyval) : Response :=
  Body (PyDict [("success", PyBool true); ("data", PyList data)]).

Definition failed : Response :=
  Body (PyDict [("success", PyBool false); ("error", PyStr "not found")]).

Definition machine_L1 : pyval :=
  PyDict [("code", PyStr "GreenMachine"); ("linecode", PyStr "L1")].
Definition line_L1 : pyval := PyDict [("id", PyInt 3); ("code", PyStr "L1")].
Definition order_7 : pyval := PyDict [("id", PyInt 41); ("product", PyInt 7)].
Definition order_8 : pyval := PyDict [("id", PyInt 42); ("product", PyInt 8)].
Definition product_7 : pyval := PyDict [("id", PyInt 7); ("code", PyStr "P-7")].
Definition pitch_1 : pyval := PyDict [("id", PyInt 1)].
Definition dispatch_1 : pyval := PyDict [("id", PyInt 9)].

(** The line has a current order. *)
Definition api_current : list (string * Response) :=
  [ ("machines/", found [machine_L1]);
    ("buildsequence/get_current_order_on_line/", found [order_7]);
    ("productcomponents/", found [product_7]);
    ("pitchdetails/record_details/", found [pitch_1]);
    ("dispatches/open/", found [dispatch_1]) ].

(** No current order, two scheduled ones. *)
Definition api_next : list (string * Response) :=
  [ ("machines/", found [machine_L1]);
    ("buildsequence/get_current_order_on_line/", found []);
    ("lines/", found [line_L1]);
    ("buildsequence/", found [order_7; order_8]);
    ("productcomponents/", found [product_7]);
    ("pitchdetails/record_details/", found [pitch_1]);
    ("dispatches/open/", found [dispatch_1]) ].

(** No current order and no scheduled one. *)
Definition api_no_order : list (string * Response) :=
  [ ("machines/", found [machine_L1]);
    ("buildsequence/get_current_order_on_line/", found []);
    ("lines/", found [line_L1]);
    ("buildsequence/", found []);
    ("dispatches/open/", found [dispatch_1]) ].

(** No current order and no such line. *)
Definition api_no_line : list (string * Response) :=
  [ ("machines/", found [machine_L1]);
    ("buildsequence/get_current_order_on_line/", found []);
    ("lines/", failed);
    ("buildsequence/", found [order_7; order_8]) ].

(** A current order whose product the API does not find. *)
Definition api_no_product : list (string * Response) :=
  [ ("machines/", found [machine_L1]);
    ("buildsequence/get_current_order_on_line/", found [order_7]);
    ("productcomponents/", failed);
    ("pitchdetails/record_details/", found [pitch_1]) ].

(** The machine lookup finds nothing. *)
Definition api_no_machine : list (string * Response) :=
  [ ("machines/", failed) ].

Definition single_01 : ButtonEvent := mkEvent "BUTTON-01-SERIAL" "SINGLE".
Definition double_01 : ButtonEvent := mkEvent "BUTTON-01-SERIAL" "DOUBLE".
Definition long_01 : ButtonEvent := mkEvent "BUTTON-01-SERIAL" "LONG".
Definition green : pyval := PyDict [("machineCode", PyStr "GreenMachine")].

(** ** What every call of the script looks like *)

(** The seven endpoints the router can reach, each with its method. *)
Definition endpoints : list (method * string) :=
  [ (GET, "https://acme.leading2lean.com/api/1.0/machines/");
    (GET, "https://acme.leading2lean.com/api/1.0/buildsequence/get_current_order_on_line/");
    (GET, "https://acme.leading2lean.com/api/1.0/lines/");
    (GET, "https://acme.leading2lean.com/api/1.0/buildsequence/");
    (GET, "https://acme.leading2lean.com/api/1.0/productcomponents/");
    (POST, "https://acme.leading2lean.com/api/1.0/pitchdetails/record_details/");
    (POST, "https://acme.leading2lean.com/api/1.0/dispatches/open/") ].

(** A call with the fixed credentials and limit, to one of [endpoints]. *)
Definition well_formed_call (q : Request) : Prop :=
  dict_get (payload q) "auth" = Some (PyStr "abc123") /\
  dict_get (payload q) "site" = Some (PyStr "1") /\
  dict_get (payload q) "limit" = Some (PyInt 1) /\
  In (meth q, url q) endpoints.

(** Every call of [m] satisfies [P], whatever the world. *)
Definition calls_all {St A} (P : Request -> Prop) (m : M St A) : Prop :=
  forall s, Forall P (calls (m s)).

(** The reads come first: nothing follows a write but a write. *)
Definition reads_then_writes (l : list Request) : Prop :=
  l = (reads l ++ writes l)%list.

(** The lookup of a machine and the write of the cycle-count handler. *)
Definition machine_query (machineCode : pyval) : Request :=
  mkRequest GET
    "https://acme.leading2lean.com/api/1.0/machines/"
    [("auth", PyStr "abc123"); ("site", PyStr "1"); ("limit", PyInt 1);
     ("code", machineCode)].

Definition product_query (productId : pyval) : Request :=
  mkRequest GET
    "https://acme.leading2lean.com/api/1.0/productcomponents/"
    [("auth", PyStr "abc123"); ("site", PyStr "1"); ("limit", PyInt 1);
     ("id", productId)].

Definition increment_cycle_count (machineCode : pyval) : Request :=
  mkRequest POST
    "https://acme.leading2lean.com/api/1.0/machines/increment_cycle_count/"
    [("auth", PyStr "abc123"); ("site", PyStr "1"); ("limit", PyInt 1);
     ("code", machineCode); ("cyclecount", PyInt 1);
     ("skip_lastupdated", PyInt 1)].

(** An API that cannot be reached, and one that rejects every request. *)
Definition api_unreachable : list (string * Response) := [].

Definition api_rejecting : list (string * Response) :=
  [ ("machines/", failed);
    ("machines/increment_cycle_count/", failed);
    ("dispatches/open/", failed) ].

(** A line record without an [id]. *)
Definition api_line_without_id : list (string * Response) :=
  [ ("machines/", found [machine_L1]);
    ("buildsequence/get_current_order_on_line/", found []);
    ("lines/", found [PyDict [("code", PyStr "L1")]]);
    ("buildsequence/", found [order_7]) ].

(** * Properties *)

Local Open Scope list_scope.

Section Properties.

Variable St : Type.
Variable http : Request -> St -> option Response * St.
Variable now : St -> string * St.

(** ** Running a sequence *)

Lemma bind_Ok {A B} (m : M St A) (k : A -> M St B) s a :
  value (m s) = Ok a ->
  bind m k s =
  mkOutcome (value (k a (final (m s)))) (final (k a (final (m s))))
            (calls (m s) ++ calls (k a (final (m s)))).
Proof. intros H. unfold bind. rewrite H. reflexivity. Qed.

Lemma bind_Raise {A B} (m : M St A) (k : A -> M St B) s e :
  value (m s) = Raise e ->
  bind m k s = mkOutcome (Raise e) (final (m s)) (calls (m s)).
Proof. intros H. unfold bind. rewrite H. reflexivity. Qed.

Lemma bind_lift_Ok {A B} (a : A) (k : A -> M St B) s :
  bind (lift (Ok a)) k s = k a s.
Proof. unfold bind, lift. simpl. destruct (k a s). reflexivity. Qed.

Lemma bind_lift_Raise {A B} (e : exn) (k : A -> M St B) s :
  bind (lift (Raise e)) k s = mkOutcome (Raise e) s [].
Proof. reflexivity. Qed.

Lemma bind_ret {A B} (a : A) (k : A -> M St B) s :
  bind (ret a) k s = k a s.
Proof. apply (bind_lift_Ok a k s). Qed.

Lemma calls_then_ret {A B} (m : M St A) (b : B) s :
  calls (bind m (fun _ => ret b) s) = calls (m s).
Proof.
  unfold bind. destruct (value (m s)); simpl; [apply app_nil_r | reflexivity].
Qed.

Lemma final_then_ret {A B} (m : M St A) (b : B) s :
  final (bind m (fun _ => ret b) s) = final (m s).
Proof. unfold bind. destruct (value (m s)); reflexivity. Qed.

Lemma value_then_ret {A B} (m : M St A) (b : B) s :
  value (bind m (fun _ => ret b) s) =
  match value (m s) with Ok _ => Ok b | Raise e => Raise e end.
Proof. unfold bind. destruct (value (m s)); reflexivity. Qed.

Lemma value_bind_Ok {A B} (m : M St A) (k : A -> M St B) s a :
  value (m s) = Ok a -> value (bind m k s) = value (k a (final (m s))).
Proof. intros H. rewrite (bind_Ok m k s a H). reflexivity. Qed.

Lemma final_bind_Ok {A B} (m : M St A) (k : A -> M St B) s a :
  value (m s) = Ok a -> final (bind m k s) = final (k a (final (m s))).
Proof. intros H. rewrite (bind_Ok m k s a H). reflexivity. Qed.

Lemma calls_bind_Ok {A B} (m : M St A) (k : A -> M St B) s a :
  value (m s) = Ok a ->
  calls (bind m k s) = calls (m s) ++ calls (k a (final (m s))).
Proof. intros H. rewrite (bind_Ok m k s a H). reflexivity. Qed.

Lemma bind_clock {B} (k : pyval -> M St B) s :
  bind (getCurrentDateTimeStr now) k s = k (PyStr (fst (now s))) (snd (now s)).
Proof.
  unfold bind, getCurrentDateTimeStr. destruct (now s) as [t s']. simpl.
  destruct (k (PyStr t) s'). reflexivity.
Qed.

(** One call of [doGet] or [doPost]: the request goes out with the three
    fixed fields in front, and the answer is normalized. *)
Lemma doGet_run u d l s :
  doGet http u d l s =
  let q := mkRequest GET (URL ++ u)%string
             (dict_merge [("auth", PyStr AUTH); ("site", PyStr SITEID);
                          ("limit", PyInt l)] d) in
  mkOutcome
    (match fst (http q s) with
     | Some r => finishRequest r l
     | None => Raise RequestException
     end)
    (snd (http q s)) [q].
Proof.
  unfold doGet, bind, send. cbv zeta.
  destruct (http _ s) as [[r|] s']; reflexivity.
Qed.

Lemma doPost_run u d l s :
  doPost http u d l s =
  let q := mkRequest POST (URL ++ u)%string
             (dict_merge [("auth", PyStr AUTH); ("site", PyStr SITEID);
                          ("limit", PyInt l)] d) in
  mkOutcome
    (match fst (http q s) with
     | Some r => finishRequest r l
     | None => Raise RequestException
     end)
    (snd (http q s)) [q].
Proof.
  unfold doPost, bind, send. cbv zeta.
  destruct (http _ s) as [[r|] s']; reflexivity.
Qed.

(** ** Counting the calls of a run *)

Lemma reads_app l1 l2 : reads (l1 ++ l2) = reads l1 ++ reads l2.
Proof. apply filter_app. Qed.

Lemma writes_app l1 l2 : writes (l1 ++ l2) = writes l1 ++ writes l2.
Proof. apply filter_app. Qed.

Lemma length_reads_writes l :
  List.length l = (List.length (reads l) + List.length (writes l))%nat.
Proof.
  induction l as [|[[] u p] l IH]; simpl; [reflexivity | |]; rewrite IH; lia.
Qed.

Lemma issues_ret {A} (a : A) : issues_at_most 0 0 (ret a : M St A).
Proof. intros s. simpl. split; lia. Qed.

Lemma issues_lift {A} (x : res A) : issues_at_most 0 0 (lift x : M St A).
Proof. intros s. simpl. split; lia. Qed.

Lemma issues_bind {A B} r1 w1 r2 w2 (m : M St A) (k : A -> M St B) :
  issues_at_most r1 w1 m ->
  (forall a, issues_at_most r2 w2 (k a)) ->
  issues_at_most (r1 + r2) (w1 + w2) (bind m k).
Proof.
  intros Hm Hk s. unfold bind. destruct (Hm s) as [Hr Hw].
  destruct (value (m s)) as [a|e]; simpl.
  - destruct (Hk a (final (m s))) as [Hr' Hw'].
    rewrite reads_app, writes_app, !length_app. split; lia.
  - split; lia.
Qed.

Lemma issues_weaken {A} r w r' w' (m : M St A) :
  issues_at_most r w m -> (r <= r')%nat -> (w <= w')%nat ->
  issues_at_most r' w' m.
Proof. intros Hm Hr Hw s. destruct (Hm s). split; lia. Qed.

Lemma issues_if {A} r w (b : bool) (m1 m2 : M St A) :
  issues_at_most r w m1 -> issues_at_most r w m2 ->
  issues_at_most r w (if b then m1 else m2).
Proof. destruct b; trivial. Qed.

Lemma issues_send_get u p : issues_at_most 1 0 (send http (mkRequest GET u p)).
Proof. intros s. unfold send. destruct (http _ s). simpl. split; lia. Qed.

Lemma issues_send_post u p : issues_at_most 0 1 (send http (mkRequest POST u p)).
Proof. intros s. unfold send. destruct (http _ s). simpl. split; lia. Qed.

Lemma issues_doGet u d l : issues_at_most 1 0 (doGet http u d l).
Proof.
  apply (issues_bind 1 0 0 0); [apply issues_send_get | intros; apply issues_lift].
Qed.

Lemma issues_doPost u d l : issues_at_most 0 1 (doPost http u d l).
Proof.
  apply (issues_bind 0 1 0 0); [apply issues_send_post | intros; apply issues_lift].
Qed.

Lemma issues_clock : issues_at_most 0 0 (getCurrentDateTimeStr now).
Proof.
  intros s. unfold getCurrentDateTimeStr. destruct (now s). simpl. split; lia.
Qed.

Lemma issues_getNextOrderByLineCode lc :
  issues_at_most 2 0 (getNextOrderByLineCode http lc).
Proof.
  apply (issues_bind 1 0 1 0); [apply issues_doGet |].
  intros line. apply issues_if.
  - apply (issues_weaken 0 0); [apply issues_ret | lia | lia].
  - apply (issues_bind 0 0 1 0); [apply issues_lift | intros; apply issues_doGet].
Qed.

Lemma issues_getOrderByLineCode lc :
  issues_at_most 3 0 (getOrderByLineCode http lc).
Proof.
  apply (issues_bind 1 0 2 0); [apply issues_doGet |].
  intros order. apply (issues_bind 2 0 0 0).
  - apply issues_if; [apply issues_getNextOrderByLineCode |].
    apply (issues_weaken 0 0); [apply issues_ret | lia | lia].
  - intros o. apply issues_if; apply issues_ret.
Qed.

(** A step that issues nothing leaves the budget to what follows. *)
Ltac quiet_step :=
  eapply (issues_bind 0 0);
  [ first [ apply issues_lift | apply issues_clock | apply issues_ret ]
  | intro ].

Lemma issues_executeIncrementProductCountByMachineCode td :
  issues_at_most 5 1 (executeIncrementProductCountByMachineCode http now td).
Proof.
  unfold executeIncrementProductCountByMachineCode.
  quiet_step.
  apply (issues_bind 1 0 4 1); [apply issues_doGet | intro].
  quiet_step.
  apply (issues_bind 3 0 1 1); [apply issues_getOrderByLineCode | intro].
  apply issues_if.
  - apply (issues_weaken 0 0); [apply issues_ret | lia | lia].
  - quiet_step.
    apply (issues_bind 1 0 0 1); [apply issues_doGet | intro].
    do 4 quiet_step.
    apply (issues_bind 0 1 0 0); [apply issues_doPost | intro; apply issues_ret].
Qed.

Lemma issues_executeIncrementScrapCountByMachineCode td :
  issues_at_most 5 1 (executeIncrementScrapCountByMachineCode http now td).
Proof.
  unfold executeIncrementScrapCountByMachineCode.
  quiet_step.
  apply (issues_bind 1 0 4 1); [apply issues_doGet | intro].
  quiet_step.
  apply (issues_bind 3 0 1 1); [apply issues_getOrderByLineCode | intro].
  apply issues_if.
  - apply (issues_weaken 0 0); [apply issues_ret | lia | lia].
  - quiet_step.
    apply (issues_bind 1 0 0 1); [apply issues_doGet | intro].
    do 4 quiet_step.
    apply (issues_bind 0 1 0 0); [apply issues_doPost | intro; apply issues_ret].
Qed.

Lemma issues_executeLaunchCodeRedDispatchByMachineCode td :
  issues_at_most 0 1 (executeLaunchCodeRedDispatchByMachineCode http td).
Proof.
  unfold executeLaunchCodeRedDispatchByMachineCode.
  quiet_step.
  apply (issues_bind 0 1 0 0); [apply issues_doPost | intro; apply issues_ret].
Qed.

(** Whatever the click type selects issues at most five reads and one
    write. *)
Lemma issues_methods k f :
  methods_get (methods http now) k = Ok f ->
  forall td, issues_at_most 5 1 (f td).
Proof.
  unfold methods. cbn [methods_get]. intros H td.
  destruct (String.eqb "SINGLE" k).
  { injection H as <-. apply issues_executeIncrementProductCountByMachineCode. }
  destruct (String.eqb "DOUBLE" k).
  { injection H as <-. apply issues_executeIncrementScrapCountByMachineCode. }
  destruct (String.eqb "LONG" k); [| discriminate].
  injection H as <-.
  apply (issues_weaken 0 1);
    [apply issues_executeLaunchCodeRedDispatchByMachineCode | lia | lia].
Qed.

Lemma issues_lambda_handler ev :
  issues_at_most 5 1 (lambda_handler http now ev).
Proof.
  unfold lambda_handler.
  quiet_step.
  destruct (methods_get (methods http now) (clickType ev)) as [f|e] eqn:Hf.
  - intros s. rewrite bind_lift_Ok.
    apply (issues_bind 5 1 0 0); [apply (issues_methods _ _ Hf) |].
    intro. apply issues_ret.
  - intros s. rewrite bind_lift_Raise. simpl. split; lia.
Qed.

(** ** The number of calls of an invocation *)

(** C7, as the code has it: every invocation of the handler issues at most
    six sequential outbound HTTP calls in total, at most five reads (the
    machine, the current order, the line, the scheduled orders and the
    product) and at most one write. *)
Theorem lambda_handler_at_most_six_calls :
  forall (ev : ButtonEvent) (s : St),
    (List.length (calls (lambda_handler http now ev s)) <= 6)%nat /\
    (List.length (reads (calls (lambda_handler http now ev s))) <= 5)%nat /\
    (List.length (writes (calls (lambda_handler http now ev s))) <= 1)%nat.
Proof.
  intros ev s. destruct (issues_lambda_handler ev s) as [Hr Hw].
  rewrite length_reads_writes. repeat split; lia.
Qed.

(** ** Response normalization *)

(** C3: for every response envelope, [finishRequest] returns [x] when
    [success] is true, [data] is the list [[x, y]] and the limit is 1;
    returns [None] when [success] is true and [data] is the empty list;
    and returns [None] when [success] is false, whatever [data] is (and
    whether it is there or not). *)
Theorem finishRequest_normalizes :
  forall (envelope : list (string * pyval)),
    (forall x y,
        dict_get envelope "success" = Some (PyBool true) ->
        dict_get envelope "data" = Some (PyList [x; y]) ->
        finishRequest (Body (PyDict envelope)) 1 = Ok x) /\
    (forall limit,
        dict_get envelope "success" = Some (PyBool true) ->
        dict_get envelope "data" = Some (PyList []) ->
        finishRequest (Body (PyDict envelope)) limit = Ok PyNone) /\
    (forall limit,
        dict_get envelope "success" = Some (PyBool false) ->
        finishRequest (Body (PyDict envelope)) limit = Ok PyNone).
Proof.
  intros envelope. unfold finishRequest, json, subscript, rbind.
  repeat split.
  - intros x y Hs Hd. rewrite Hs. cbn [truthy]. rewrite Hd. reflexivity.
  - intros limit Hs Hd. rewrite Hs. cbn [truthy]. rewrite Hd. reflexivity.
  - intros limit Hs. rewrite Hs. reflexivity.
Qed.

(** ** The serial-number table *)

Lemma dict_get_In d k v : dict_get d k = Some v -> In (k, v) d.
Proof.
  induction d as [|[k' v'] d IH]; simpl; [discriminate |].
  destruct (String.eqb_spec k' k) as [->|_].
  - intros [= ->]. now left.
  - intros H. right. now apply IH.
Qed.

Lemma dict_get_None d k :
  (forall v, ~ In (k, v) d) -> dict_get d k = None.
Proof.
  intros H. destruct (dict_get d k) as [v|] eqn:E; [| reflexivity].
  destruct (H v (dict_get_In _ _ _ E)).
Qed.

(** C4: the table has four entries; for a serial number of the table,
    [getThingData] returns the machine code mapped to it; for any other
    serial number it raises [KeyError], and so does the router, before
    any call is issued. *)
Theorem getThingData_total_on_table_only :
  List.length machineCodeLineMatrix = 4%nat /\
  forall serial,
    (forall code,
        In (serial, code) machineCodeLineMatrix ->
        getThingData serial = Ok (PyDict [("machineCode", code)])) /\
    ((forall code, ~ In (serial, code) machineCodeLineMatrix) ->
     getThingData serial = Raise (KeyError serial) /\
     forall ev s,
       serialNumber ev = serial ->
       lambda_handler http now ev s = mkOutcome (Raise (KeyError serial)) s []).
Proof.
  split; [reflexivity |]. intros serial. split.
  - intros code H. simpl in H.
    destruct H as [H|[H|[H|[H|[]]]]]; injection H as <- <-; reflexivity.
  - intros H.
    assert (E : getThingData serial = Raise (KeyError serial)).
    { unfold getThingData, subscript. now rewrite (dict_get_None _ _ H). }
    split; [exact E |].
    intros ev s Hev. unfold lambda_handler. rewrite Hev, E. reflexivity.
Qed.

(** ** The long click *)

Lemma getThingData_known serial code :
  dict_get machineCodeLineMatrix serial = Some code ->
  getThingData serial = Ok (PyDict [("machineCode", code)]).
Proof. intros H. unfold getThingData, subscript. now rewrite H. Qed.

Lemma executeLaunchCodeRedDispatchByMachineCode_calls td code s :
  subscript td "machineCode" = Ok code ->
  calls (executeLaunchCodeRedDispatchByMachineCode http td s)
  = [open_dispatch code].
Proof.
  intros H. unfold executeLaunchCodeRedDispatchByMachineCode.
  rewrite H, bind_lift_Ok.
  unfold bind. rewrite doPost_run. cbv zeta. cbn [value final calls].
  destruct (match fst (http _ s) with Some _ => _ | None => _ end);
    reflexivity.
Qed.

(** C5: for every long click of a button of the table, the invocation
    issues exactly one call: the write to [dispatches/open/] with the
    fixed type, trade, description and user and with the machine code of
    the button.  The world [s] is arbitrary, so this holds whatever the
    state of the orders, and since it is the only call no read precedes
    it.  The handler itself does so for every machine code. *)
Theorem long_click_opens_one_dispatch :
  (forall td code s,
      subscript td "machineCode" = Ok code ->
      calls (executeLaunchCodeRedDispatchByMachineCode http td s)
      = [open_dispatch code]) /\
  (forall ev code s,
      clickType ev = "LONG"%string ->
      dict_get machineCodeLineMatrix (serialNumber ev) = Some code ->
      calls (lambda_handler http now ev s) = [open_dispatch code] /\
      reads (calls (lambda_handler http now ev s)) = [] /\
      writes (calls (lambda_handler http now ev s)) = [open_dispatch code]).
Proof.
  split; [exact executeLaunchCodeRedDispatchByMachineCode_calls |].
  intros ev code s Hc Hs.
  assert (E : calls (lambda_handler http now ev s) = [open_dispatch code]).
  { unfold lambda_handler.
    rewrite (getThingData_known _ _ Hs), bind_lift_Ok, Hc.
    cbn [methods methods_get String.eqb Ascii.eqb Bool.eqb].
    rewrite bind_lift_Ok, calls_then_ret.
    now apply executeLaunchCodeRedDispatchByMachineCode_calls. }
  rewrite E. repeat split.
Qed.

(** ** Order resolution *)

Lemma outcome_eta {A} (o : outcome St A) :
  mkOutcome (value o) (final o) (calls o) = o.
Proof. destruct o. reflexivity. Qed.

(** Runs a sequence as far as the hypotheses tell what each step gives. *)
Ltac run :=
  repeat first
    [ rewrite bind_lift_Ok
    | rewrite bind_ret
    | rewrite bind_clock
    | match goal with
      | H : value (?m ?s) = Ok ?a |- context [value (bind ?m ?k ?s)] =>
          rewrite (value_bind_Ok m k s a H)
      | H : value (?m ?s) = Ok ?a |- context [calls (bind ?m ?k ?s)] =>
          rewrite (calls_bind_Ok m k s a H)
      | H : value (?m ?s) = Ok ?a |- context [final (bind ?m ?k ?s)] =>
          rewrite (final_bind_Ok m k s a H)
      | H : ?r = Ok ?a |- context [lift ?r] => rewrite H
      | H : truthy ?v = _ |- context [truthy ?v] => rewrite H; cbn [negb]
      end
    | progress cbv beta ].

Lemma getCurrentOrderByLineCode_calls lc s :
  calls (getCurrentOrderByLineCode http lc s) = [current_order_query lc].
Proof. unfold getCurrentOrderByLineCode. rewrite doGet_run. reflexivity. Qed.

Lemma getLineInfoByCode_calls lc s :
  calls (getLineInfoByCode http lc s) = [line_query lc].
Proof. unfold getLineInfoByCode. rewrite doGet_run. reflexivity. Qed.

Lemma getNextOrderByLineCode_no_line lc s line :
  value (getLineInfoByCode http lc s) = Ok line ->
  truthy line = false ->
  getNextOrderByLineCode http lc s =
  mkOutcome (Ok PyNone) (final (getLineInfoByCode http lc s)) [line_query lc].
Proof.
  intros Hl Ht. unfold getNextOrderByLineCode.
  rewrite (bind_Ok _ _ _ _ Hl), Ht. cbn [negb ret value final calls].
  now rewrite getLineInfoByCode_calls.
Qed.

Lemma getNextOrderByLineCode_line lc s line id :
  value (getLineInfoByCode http lc s) = Ok line ->
  truthy line = true ->
  subscript line "id" = Ok id ->
  getNextOrderByLineCode http lc s =
  mkOutcome
    (match fst (http (buildsequence_query id)
                  (final (getLineInfoByCode http lc s))) with
     | Some r => finishRequest r 1
     | None => Raise RequestException
     end)
    (snd (http (buildsequence_query id) (final (getLineInfoByCode http lc s))))
    [line_query lc; buildsequence_query id].
Proof.
  intros Hl Ht Hi. unfold getNextOrderByLineCode.
  rewrite (bind_Ok _ _ _ _ Hl), Ht. cbn [negb].
  rewrite Hi, bind_lift_Ok, doGet_run, getLineInfoByCode_calls.
  reflexivity.
Qed.

(** The calls of the fallback: the line lookup, then the scheduled-order
    query when and only when the lookup gave a line with an [id]. *)
Lemma getNextOrderByLineCode_calls lc s :
  calls (getNextOrderByLineCode http lc s) = [line_query lc] \/
  exists line id,
    value (getLineInfoByCode http lc s) = Ok line /\
    truthy line = true /\
    subscript line "id" = Ok id /\
    calls (getNextOrderByLineCode http lc s)
    = [line_query lc; buildsequence_query id].
Proof.
  destruct (value (getLineInfoByCode http lc s)) as [line|e] eqn:Hl.
  - destruct (truthy line) eqn:Ht.
    + destruct (subscript line "id") as [id|e] eqn:Hi.
      * right. exists line, id. repeat split; trivial.
        now rewrite (getNextOrderByLineCode_line _ _ _ _ Hl Ht Hi).
      * left. unfold getNextOrderByLineCode.
        rewrite (bind_Ok _ _ _ _ Hl), Ht. cbn [negb].
        rewrite Hi, bind_lift_Raise. cbn [calls].
        now rewrite getLineInfoByCode_calls.
    + left. now rewrite (getNextOrderByLineCode_no_line _ _ _ Hl Ht).
  - left. unfold getNextOrderByLineCode.
    rewrite (bind_Raise _ _ _ _ Hl). cbn [calls].
    apply getLineInfoByCode_calls.
Qed.

Lemma getOrderByLineCode_current lc s cur :
  value (getCurrentOrderByLineCode http lc s) = Ok cur ->
  truthy cur = true ->
  getOrderByLineCode http lc s = getCurrentOrderByLineCode http lc s.
Proof.
  intros Hc Ht. unfold getOrderByLineCode.
  rewrite (bind_Ok _ _ _ _ Hc), Ht. cbn [negb].
  rewrite bind_ret, Ht. cbn [negb ret value final calls].
  rewrite app_nil_r, <- Hc. apply outcome_eta.
Qed.

Lemma getOrderByLineCode_fallback lc s cur :
  value (getCurrentOrderByLineCode http lc s) = Ok cur ->
  truthy cur = false ->
  let o := getNextOrderByLineCode http lc
             (final (getCurrentOrderByLineCode http lc s)) in
  getOrderByLineCode http lc s =
  mkOutcome
    (match value o with
     | Ok next => Ok (if truthy next then next else PyNone)
     | Raise e => Raise e
     end)
    (final o)
    (current_order_query lc :: calls o).
Proof.
  intros Hc Ht. cbv zeta. unfold getOrderByLineCode.
  rewrite (bind_Ok _ _ _ _ Hc), Ht. cbn [negb].
  rewrite getCurrentOrderByLineCode_calls.
  destruct (value (getNextOrderByLineCode http lc
                     (final (getCurrentOrderByLineCode http lc s))))
    as [next|e] eqn:Hn.
  - rewrite (bind_Ok _ _ _ _ Hn).
    destruct (truthy next); cbn [negb ret value final calls];
      now rewrite app_nil_r.
  - rewrite (bind_Raise _ _ _ _ Hn). reflexivity.
Qed.


Lemma getOrderByLineCode_calls lc s :
  calls (getOrderByLineCode http lc s) = [current_order_query lc] \/
  exists cur,
    value (getCurrentOrderByLineCode http lc s) = Ok cur /\
    truthy cur = false /\
    calls (getOrderByLineCode http lc s)
    = current_order_query lc
        :: calls (getNextOrderByLineCode http lc
                    (final (getCurrentOrderByLineCode http lc s))).
Proof.
  destruct (value (getCurrentOrderByLineCode http lc s)) as [cur|e] eqn:Hc.
  - destruct (truthy cur) eqn:Ht.
    + left. rewrite (getOrderByLineCode_current _ _ _ Hc Ht).
      apply getCurrentOrderByLineCode_calls.
    + right. exists cur. repeat split; trivial.
      now rewrite (getOrderByLineCode_fallback _ _ _ Hc Ht).
  - left. unfold getOrderByLineCode. rewrite (bind_Raise _ _ _ _ Hc).
    apply getCurrentOrderByLineCode_calls.
Qed.

(** C6: order resolution returns the current order of the line whenever
    the current-order query yields one, and issues nothing else; a query
    to [buildsequence/] is issued only when the current-order query
    yielded none, and it is the query with the status bounds 2 and 6,
    ordered by descending schedule-start date, limited to one; of what
    that query answers, the first match is returned, or [None] when there
    is none. *)
Theorem getOrderByLineCode_prefers_current :
  forall lc s,
    (forall cur,
        value (getCurrentOrderByLineCode http lc s) = Ok cur ->
        truthy cur = true ->
        value (getOrderByLineCode http lc s) = Ok cur /\
        final (getOrderByLineCode http lc s)
        = final (getCurrentOrderByLineCode http lc s) /\
        calls (getOrderByLineCode http lc s) = [current_order_query lc]) /\
    (forall q,
        In q (calls (getOrderByLineCode http lc s)) ->
        url q = "https://acme.leading2lean.com/api/1.0/buildsequence/"%string ->
        (exists cur,
            value (getCurrentOrderByLineCode http lc s) = Ok cur /\
            truthy cur = false) /\
        (exists id, q = buildsequence_query id)) /\
    (forall cur line id envelope s',
        value (getCurrentOrderByLineCode http lc s) = Ok cur ->
        truthy cur = false ->
        value (getLineInfoByCode http lc
                 (final (getCurrentOrderByLineCode http lc s))) = Ok line ->
        truthy line = true ->
        subscript line "id" = Ok id ->
        http (buildsequence_query id)
             (final (getLineInfoByCode http lc
                       (final (getCurrentOrderByLineCode http lc s))))
        = (Some (Body (PyDict envelope)), s') ->
        dict_get envelope "success" = Some (PyBool true) ->
        calls (getOrderByLineCode http lc s)
        = [current_order_query lc; line_query lc; buildsequence_query id] /\
        (forall first rest,
            dict_get envelope "data" = Some (PyList (first :: rest)) ->
            truthy first = true ->
            value (getOrderByLineCode http lc s) = Ok first) /\
        (dict_get envelope "data" = Some (PyList []) ->
         value (getOrderByLineCode http lc s) = Ok PyNone)).
Proof.
  intros lc s. split; [| split].
  - intros cur Hc Ht. rewrite (getOrderByLineCode_current _ _ _ Hc Ht).
    repeat split; [exact Hc | apply getCurrentOrderByLineCode_calls].
  - intros q Hq Hu.
    destruct (getOrderByLineCode_calls lc s) as [E|(cur & Hc & Ht & E)];
      rewrite E in Hq.
    + destruct Hq as [<-|[]]. discriminate Hu.
    + destruct Hq as [<-|Hq]; [discriminate Hu |].
      split; [now exists cur |].
      destruct (getNextOrderByLineCode_calls lc
                  (final (getCurrentOrderByLineCode http lc s)))
        as [E'|(line & id & _ & _ & _ & E')]; rewrite E' in Hq.
      * destruct Hq as [<-|[]]. discriminate Hu.
      * destruct Hq as [<-|[<-|[]]]; [discriminate Hu | now exists id].
  - intros cur line id envelope s' Hc Ht Hl Htl Hi Hq Hs.
    rewrite (getOrderByLineCode_fallback _ _ _ Hc Ht). cbv zeta.
    rewrite (getNextOrderByLineCode_line _ _ _ _ Hl Htl Hi), Hq.
    cbn [value final calls fst snd].
    split; [reflexivity |].
    unfold finishRequest, json, subscript, rbind. rewrite Hs. cbn [truthy].
    split.
    + intros first rest Hd Hf. rewrite Hd. cbn. now rewrite Hf.
    + intros Hd. rewrite Hd. reflexivity.
Qed.

(** ** The counting handlers *)

Lemma calls_then_ret_of {A B} (m : M St A) (f : A -> B) s :
  calls (bind m (fun x => ret (f x)) s) = calls (m s).
Proof.
  unfold bind. destruct (value (m s)); simpl; [apply app_nil_r | reflexivity].
Qed.

Lemma no_writes {A} r (m : M St A) s :
  issues_at_most r 0 m -> writes (calls (m s)) = [].
Proof.
  intros H. destruct (H s) as [_ Hw].
  destruct (writes (calls (m s))); [reflexivity | simpl in Hw; lia].
Qed.

Lemma writes_getMachineInfoByCode code s :
  writes (calls (getMachineInfoByCode http code s)) = [].
Proof. apply (no_writes 1), issues_doGet. Qed.

Lemma writes_getOrderByLineCode lc s :
  writes (calls (getOrderByLineCode http lc s)) = [].
Proof. apply (no_writes 3), issues_getOrderByLineCode. Qed.

Lemma writes_getProductInfoById id s :
  writes (calls (getProductInfoById http id s)) = [].
Proof. apply (no_writes 1), issues_doGet. Qed.

(** The path of a counting handler that finds no order. *)
Ltac no_order_path :=
  intros Hc Hm Hl Ho Ht; split; run;
  [ reflexivity
  | cbn [ret calls];
    now rewrite !writes_app, writes_getMachineInfoByCode,
      writes_getOrderByLineCode ].

Lemma executeIncrementProductCountByMachineCode_no_order
  td code mi lc order s :
  subscript td "machineCode" = Ok code ->
  value (getMachineInfoByCode http code s) = Ok mi ->
  subscript mi "linecode" = Ok lc ->
  value (getOrderByLineCode http lc (final (getMachineInfoByCode http code s)))
  = Ok order ->
  truthy order = false ->
  value (executeIncrementProductCountByMachineCode http now td s)
  = Ok no_order_found /\
  writes (calls (executeIncrementProductCountByMachineCode http now td s))
  = [].
Proof. unfold executeIncrementProductCountByMachineCode. no_order_path. Qed.

Lemma executeIncrementScrapCountByMachineCode_no_order
  td code mi lc order s :
  subscript td "machineCode" = Ok code ->
  value (getMachineInfoByCode http code s) = Ok mi ->
  subscript mi "linecode" = Ok lc ->
  value (getOrderByLineCode http lc (final (getMachineInfoByCode http code s)))
  = Ok order ->
  truthy order = false ->
  value (executeIncrementScrapCountByMachineCode http now td s)
  = Ok no_order_found /\
  writes (calls (executeIncrementScrapCountByMachineCode http now td s))
  = [].
Proof. unfold executeIncrementScrapCountByMachineCode. no_order_path. Qed.

(** The path of a counting handler that gets to its write. *)
Ltac write_path :=
  intros Hc Hm Hl Ho Ht Hp Hq Hk; run;
  rewrite calls_then_ret_of, doPost_run; cbv zeta; cbn [calls];
  rewrite !writes_app, writes_getMachineInfoByCode,
    writes_getOrderByLineCode, writes_getProductInfoById;
  reflexivity.

Lemma executeIncrementProductCountByMachineCode_writes
  td code mi lc order id product productcode s :
  subscript td "machineCode" = Ok code ->
  value (getMachineInfoByCode http code s) = Ok mi ->
  subscript mi "linecode" = Ok lc ->
  value (getOrderByLineCode http lc (final (getMachineInfoByCode http code s)))
  = Ok order ->
  truthy order = true ->
  subscript order "product" = Ok id ->
  value (getProductInfoById http id
           (final (getOrderByLineCode http lc
                     (final (getMachineInfoByCode http code s)))))
  = Ok product ->
  subscript product "code" = Ok productcode ->
  let s3 := final (getProductInfoById http id
                     (final (getOrderByLineCode http lc
                               (final (getMachineInfoByCode http code s))))) in
  writes (calls (executeIncrementProductCountByMachineCode http now td s))
  = [record_details lc (PyStr (fst (now s3)))
       (PyStr (fst (now (snd (now s3))))) productcode "actual"].
Proof. unfold executeIncrementProductCountByMachineCode. write_path. Qed.

Lemma executeIncrementScrapCountByMachineCode_writes
  td code mi lc order id product productcode s :
  subscript td "machineCode" = Ok code ->
  value (getMachineInfoByCode http code s) = Ok mi ->
  subscript mi "linecode" = Ok lc ->
  value (getOrderByLineCode http lc (final (getMachineInfoByCode http code s)))
  = Ok order ->
  truthy order = true ->
  subscript order "product" = Ok id ->
  value (getProductInfoById http id
           (final (getOrderByLineCode http lc
                     (final (getMachineInfoByCode http code s)))))
  = Ok product ->
  subscript product "code" = Ok productcode ->
  let s3 := final (getProductInfoById http id
                     (final (getOrderByLineCode http lc
                               (final (getMachineInfoByCode http code s))))) in
  writes (calls (executeIncrementScrapCountByMachineCode http now td s))
  = [record_details lc (PyStr (fst (now s3)))
       (PyStr (fst (now (snd (now s3))))) productcode "scrap"].
Proof. unfold executeIncrementScrapCountByMachineCode. write_path. Qed.

(** ** The router *)

(** For a button of the table and a click type of [methods], the router
    runs the handler of the click type on the machine of the button. *)
Lemma lambda_handler_runs ev code handler s :
  dict_get machineCodeLineMatrix (serialNumber ev) = Some code ->
  methods_get (methods http now) (clickType ev) = Ok handler ->
  calls (lambda_handler http now ev s)
  = calls (handler (PyDict [("machineCode", code)]) s) /\
  final (lambda_handler http now ev s)
  = final (handler (PyDict [("machineCode", code)]) s) /\
  value (lambda_handler http now ev s)
  = match value (handler (PyDict [("machineCode", code)]) s) with
    | Ok _ => Ok (response ev)
    | Raise e => Raise e
    end.
Proof.
  intros Hs Hm. unfold lambda_handler.
  rewrite (getThingData_known _ _ Hs), bind_lift_Ok, Hm, bind_lift_Ok.
  rewrite calls_then_ret, final_then_ret, value_then_ret. repeat split.
Qed.

Lemma methods_SINGLE :
  methods_get (methods http now) "SINGLE"
  = Ok (executeIncrementProductCountByMachineCode http now).
Proof. reflexivity. Qed.

Lemma methods_DOUBLE :
  methods_get (methods http now) "DOUBLE"
  = Ok (executeIncrementScrapCountByMachineCode http now).
Proof. reflexivity. Qed.

Lemma methods_LONG :
  methods_get (methods http now) "LONG"
  = Ok (executeLaunchCodeRedDispatchByMachineCode http).
Proof. reflexivity. Qed.

(** C1, as the code has it: for a single click whose line resolves to an
    order, when the order carries a product id and the product lookup
    returns a record with a code, exactly one write call is issued, to
    [pitchdetails/record_details/], with [actual = 1] and no [scrap]
    field; for a double click under the same conditions, exactly one
    write call is issued, with [scrap = 1] and no [actual] field. *)
Theorem click_with_order_and_product_writes_once :
  forall ev code mi lc order id product productcode s,
    dict_get machineCodeLineMatrix (serialNumber ev) = Some code ->
    value (getMachineInfoByCode http code s) = Ok mi ->
    subscript mi "linecode" = Ok lc ->
    value (getOrderByLineCode http lc
             (final (getMachineInfoByCode http code s))) = Ok order ->
    truthy order = true ->
    subscript order "product" = Ok id ->
    value (getProductInfoById http id
             (final (getOrderByLineCode http lc
                       (final (getMachineInfoByCode http code s)))))
    = Ok product ->
    subscript product "code" = Ok productcode ->
    (clickType ev = "SINGLE"%string ->
     exists w,
       writes (calls (lambda_handler http now ev s)) = [w] /\
       meth w = POST /\
       url w = "https://acme.leading2lean.com/api/1.0/pitchdetails/record_details/"%string /\
       dict_get (payload w) "linecode" = Some lc /\
       dict_get (payload w) "productcode" = Some productcode /\
       dict_get (payload w) "actual" = Some (PyInt 1) /\
       dict_get (payload w) "scrap" = None) /\
    (clickType ev = "DOUBLE"%string ->
     exists w,
       writes (calls (lambda_handler http now ev s)) = [w] /\
       meth w = POST /\
       url w = "https://acme.leading2lean.com/api/1.0/pitchdetails/record_details/"%string /\
       dict_get (payload w) "linecode" = Some lc /\
       dict_get (payload w) "productcode" = Some productcode /\
       dict_get (payload w) "scrap" = Some (PyInt 1) /\
       dict_get (payload w) "actual" = None).
Proof.
  intros ev code mi lc order id product productcode s
         Hs Hm Hl Ho Ht Hp Hq Hk.
  split; intros Hc.
  - destruct (lambda_handler_runs ev code
                (executeIncrementProductCountByMachineCode http now) s Hs) as [E _].
    { rewrite Hc. apply methods_SINGLE. }
    rewrite E.
    rewrite (executeIncrementProductCountByMachineCode_writes
               (PyDict [("machineCode", code)]) code mi lc order id product
               productcode s eq_refl Hm Hl Ho Ht Hp Hq Hk).
    eexists. split; [reflexivity |]. repeat split.
  - destruct (lambda_handler_runs ev code
                (executeIncrementScrapCountByMachineCode http now) s Hs) as [E _].
    { rewrite Hc. apply methods_DOUBLE. }
    rewrite E.
    rewrite (executeIncrementScrapCountByMachineCode_writes
               (PyDict [("machineCode", code)]) code mi lc order id product
               productcode s eq_refl Hm Hl Ho Ht Hp Hq Hk).
    eexists. split; [reflexivity |]. repeat split.
Qed.

(** C2: for a single or double click where order resolution on the
    resolved line yields no order, the handler returns the failure result
    [{success: False, error: 'No order found'}] and no write call is
    issued, by the handler or by the invocation as a whole. *)
Theorem click_without_order_fails_without_write :
  forall ev code mi lc order s,
    clickType ev = "SINGLE"%string \/ clickType ev = "DOUBLE"%string ->
    dict_get machineCodeLineMatrix (serialNumber ev) = Some code ->
    value (getMachineInfoByCode http code s) = Ok mi ->
    subscript mi "linecode" = Ok lc ->
    value (getOrderByLineCode http lc
             (final (getMachineInfoByCode http code s))) = Ok order ->
    truthy order = false ->
    exists handler,
      methods_get (methods http now) (clickType ev) = Ok handler /\
      value (handler (PyDict [("machineCode", code)]) s)
      = Ok (PyDict [("success", PyBool false);
                    ("error", PyStr "No order found")]) /\
      writes (calls (handler (PyDict [("machineCode", code)]) s)) = [] /\
      writes (calls (lambda_handler http now ev s)) = [].
Proof.
  intros ev code mi lc order s Hc Hs Hm Hl Ho Ht.
  destruct Hc as [Hc|Hc].
  - destruct (executeIncrementProductCountByMachineCode_no_order
                (PyDict [("machineCode", code)]) code mi lc order s
                eq_refl Hm Hl Ho Ht) as [Hv Hw].
    eexists. rewrite Hc. split; [apply methods_SINGLE |].
    repeat split; trivial.
    destruct (lambda_handler_runs ev code
                (executeIncrementProductCountByMachineCode http now) s Hs) as [E _];
      [rewrite Hc; apply methods_SINGLE | now rewrite E].
  - destruct (executeIncrementScrapCountByMachineCode_no_order
                (PyDict [("machineCode", code)]) code mi lc order s
                eq_refl Hm Hl Ho Ht) as [Hv Hw].
    eexists. rewrite Hc. split; [apply methods_DOUBLE |].
    repeat split; trivial.
    destruct (lambda_handler_runs ev code
                (executeIncrementScrapCountByMachineCode http now) s Hs) as [E _];
      [rewrite Hc; apply methods_DOUBLE | now rewrite E].
Qed.

(** C8, as the code has it: the router discards the ActionResult of the
    handler.  Whatever the handler returns, the value of the router is
    the status code 200 with a body that is the string made of the click
    type and the serial number, with nothing of the ActionResult in it. *)
Theorem lambda_handler_discards_action_result :
  forall ev code handler s action_result,
    dict_get machineCodeLineMatrix (serialNumber ev) = Some code ->
    methods_get (methods http now) (clickType ev) = Ok handler ->
    value (handler (PyDict [("machineCode", code)]) s) = Ok action_result ->
    value (lambda_handler http now ev s)
    = Ok (PyDict [("statusCode", PyInt 200);
                  ("body", PyStr (clickType ev ++ " event run for button "
                                  ++ serialNumber ev)%string)]).
Proof.
  intros ev code handler s r Hs Hm Hv.
  destruct (lambda_handler_runs ev code handler s Hs Hm) as (_ & _ & E).
  now rewrite E, Hv.
Qed.

(** C9, as the code has it: for every event with a known serial number
    and a click type of SINGLE, DOUBLE or LONG, exactly one handler runs,
    the one of the click type: the calls and the final state of the
    invocation are those of that handler.  Whenever that handler returns,
    whether it reports success or failure, the router returns status
    code 200 with the body made of the click type and the serial number;
    when the handler raises, the router raises the same exception. *)
Theorem lambda_handler_runs_one_handler :
  forall ev code s,
    dict_get machineCodeLineMatrix (serialNumber ev) = Some code ->
    clickType ev = "SINGLE"%string \/ clickType ev = "DOUBLE"%string \/
    clickType ev = "LONG"%string ->
    exists handler,
      (clickType ev = "SINGLE"%string /\
       handler = executeIncrementProductCountByMachineCode http now \/
       clickType ev = "DOUBLE"%string /\
       handler = executeIncrementScrapCountByMachineCode http now \/
       clickType ev = "LONG"%string /\
       handler = executeLaunchCodeRedDispatchByMachineCode http) /\
      calls (lambda_handler http now ev s)
      = calls (handler (PyDict [("machineCode", code)]) s) /\
      final (lambda_handler http now ev s)
      = final (handler (PyDict [("machineCode", code)]) s) /\
      (forall action_result,
          value (handler (PyDict [("machineCode", code)]) s)
          = Ok action_result ->
          value (lambda_handler http now ev s)
          = Ok (PyDict [("statusCode", PyInt 200);
                        ("body",
                         PyStr (clickType ev ++ " event run for button "
                                ++ serialNumber ev)%string)])) /\
      (forall e,
          value (handler (PyDict [("machineCode", code)]) s) = Raise e ->
          value (lambda_handler http now ev s) = Raise e).
Proof.
  intros ev code s Hs Hc.
  assert (Hm : exists handler,
             (clickType ev = "SINGLE"%string /\
              handler = executeIncrementProductCountByMachineCode http now \/
              clickType ev = "DOUBLE"%string /\
              handler = executeIncrementScrapCountByMachineCode http now \/
              clickType ev = "LONG"%string /\
              handler = executeLaunchCodeRedDispatchByMachineCode http) /\
             methods_get (methods http now) (clickType ev) = Ok handler).
  { destruct Hc as [Hc|[Hc|Hc]]; rewrite Hc; eexists; split;
      [ left; split; reflexivity | reflexivity
      | right; left; split; reflexivity | reflexivity
      | right; right; split; reflexivity | reflexivity ]. }
  destruct Hm as (handler & Hh & Hm). exists handler.
  destruct (lambda_handler_runs ev code handler s Hs Hm) as (Ec & Ef & Ev).
  repeat split; trivial.
  - intros r Hv. now rewrite Ev, Hv.
  - intros e Hv. now rewrite Ev, Hv.
Qed.

(** ** A line that is not found *)

(** C10: when the [lines/] lookup of the fallback returns no line,
    [getNextOrderByLineCode] returns [None] and its only call is that
    lookup: the [buildsequence/] query is never issued.  A line that has
    no scheduled order gives the same [None], so the two cannot be told
    apart by the handler, which for a single or a double click returns
    the 'No order found' failure and writes nothing. *)
Theorem no_line_is_no_order :
  (forall lc s line,
      value (getLineInfoByCode http lc s) = Ok line ->
      truthy line = false ->
      value (getNextOrderByLineCode http lc s) = Ok PyNone /\
      calls (getNextOrderByLineCode http lc s) = [line_query lc]) /\
  (forall lc s line id envelope s',
      value (getLineInfoByCode http lc s) = Ok line ->
      truthy line = true ->
      subscript line "id" = Ok id ->
      http (buildsequence_query id) (final (getLineInfoByCode http lc s))
      = (Some (Body (PyDict envelope)), s') ->
      dict_get envelope "success" = Some (PyBool true) ->
      dict_get envelope "data" = Some (PyList []) ->
      value (getNextOrderByLineCode http lc s) = Ok PyNone) /\
  (forall ev code mi lc cur line s,
      clickType ev = "SINGLE"%string \/ clickType ev = "DOUBLE"%string ->
      dict_get machineCodeLineMatrix (serialNumber ev) = Some code ->
      value (getMachineInfoByCode http code s) = Ok mi ->
      subscript mi "linecode" = Ok lc ->
      value (getCurrentOrderByLineCode http lc
               (final (getMachineInfoByCode http code s))) = Ok cur ->
      truthy cur = false ->
      value (getLineInfoByCode http lc
               (final (getCurrentOrderByLineCode http lc
                         (final (getMachineInfoByCode http code s)))))
      = Ok line ->
      truthy line = false ->
      exists handler,
        methods_get (methods http now) (clickType ev) = Ok handler /\
        value (handler (PyDict [("machineCode", code)]) s)
        = Ok (PyDict [("success", PyBool false);
                      ("error", PyStr "No order found")]) /\
        writes (calls (handler (PyDict [("machineCode", code)]) s)) = []).
Proof.
  split; [| split].
  - intros lc s line Hl Ht.
    rewrite (getNextOrderByLineCode_no_line _ _ _ Hl Ht). now split.
  - intros lc s line id envelope s' Hl Ht Hi Hq Hs Hd.
    rewrite (getNextOrderByLineCode_line _ _ _ _ Hl Ht Hi), Hq.
    cbn [value fst].
    unfold finishRequest, json, subscript, rbind.
    rewrite Hs. cbn [truthy]. rewrite Hd. reflexivity.
  - intros ev code mi lc cur line s Hc Hs Hm Hl Hcur Htc Hline Htl.
    assert (Ho : value (getOrderByLineCode http lc
                          (final (getMachineInfoByCode http code s)))
                 = Ok PyNone).
    { rewrite (getOrderByLineCode_fallback _ _ _ Hcur Htc). cbv zeta.
      now rewrite (getNextOrderByLineCode_no_line _ _ _ Hline Htl). }
    destruct Hc as [Hc|Hc]; rewrite Hc; eexists.
    + split; [apply methods_SINGLE |].
      apply (executeIncrementProductCountByMachineCode_no_order
               (PyDict [("machineCode", code)]) code mi lc PyNone s
               eq_refl Hm Hl Ho eq_refl).
    + split; [apply methods_DOUBLE |].
      apply (executeIncrementScrapCountByMachineCode_no_order
               (PyDict [("machineCode", code)]) code mi lc PyNone s
               eq_refl Hm Hl Ho eq_refl).
Qed.

(** * Further properties of the script *)

(** ** The shape of every call *)

Lemma calls_all_ret {A} P (a : A) : calls_all P (ret a : M St A).
Proof. intros s. constructor. Qed.

Lemma calls_all_lift {A} P (x : res A) : calls_all P (lift x : M St A).
Proof. intros s. constructor. Qed.

Lemma calls_all_clock P : calls_all P (getCurrentDateTimeStr now).
Proof.
  intros s. unfold getCurrentDateTimeStr. destruct (now s). constructor.
Qed.

Lemma calls_all_bind {A B} P (m : M St A) (k : A -> M St B) :
  calls_all P m -> (forall a, calls_all P (k a)) -> calls_all P (bind m k).
Proof.
  intros Hm Hk s. unfold bind.
  destruct (value (m s)) as [a|e]; cbn [calls]; [| apply Hm].
  apply Forall_app. split; [apply Hm | apply Hk].
Qed.

Lemma calls_all_if {A} P (b : bool) (m1 m2 : M St A) :
  calls_all P m1 -> calls_all P m2 -> calls_all P (if b then m1 else m2).
Proof. destruct b; trivial. Qed.

(** Proves that a sequence of lookups and writes with literal paths and
    field names issues well-formed calls only. *)
Ltac well_formed_step :=
  first
    [ match goal with
      | |- calls_all _ (doGet _ _ _ _) =>
          intros ?s; rewrite doGet_run; cbv zeta; cbn [calls];
          constructor; [| constructor];
          unfold well_formed_call; simpl; repeat split; auto 10
      | |- calls_all _ (doPost _ _ _ _) =>
          intros ?s; rewrite doPost_run; cbv zeta; cbn [calls];
          constructor; [| constructor];
          unfold well_formed_call; simpl; repeat split; auto 10
      end
    | apply calls_all_ret
    | apply calls_all_lift
    | apply calls_all_clock
    | apply calls_all_if
    | apply calls_all_bind; [| intro] ].

Ltac well_formed_calls := repeat well_formed_step.

Lemma well_formed_getOrderByLineCode lc :
  calls_all well_formed_call (getOrderByLineCode http lc).
Proof.
  unfold getOrderByLineCode, getCurrentOrderByLineCode,
    getNextOrderByLineCode, getLineInfoByCode.
  well_formed_calls.
Qed.

Ltac well_formed_handler :=
  repeat first [ apply well_formed_getOrderByLineCode | well_formed_step ].

Lemma well_formed_methods k f :
  methods_get (methods http now) k = Ok f ->
  forall td, calls_all well_formed_call (f td).
Proof.
  unfold methods. cbn [methods_get]. intros H td.
  destruct (String.eqb "SINGLE" k).
  { injection H as <-. unfold executeIncrementProductCountByMachineCode,
      getMachineInfoByCode, getProductInfoById.
    well_formed_handler. }
  destruct (String.eqb "DOUBLE" k).
  { injection H as <-. unfold executeIncrementScrapCountByMachineCode,
      getMachineInfoByCode, getProductInfoById.
    well_formed_handler. }
  destruct (String.eqb "LONG" k); [| discriminate].
  injection H as <-. unfold executeLaunchCodeRedDispatchByMachineCode.
  well_formed_calls.
Qed.

(** X1: every call of every invocation carries [auth = 'abc123'],
    [site = '1'] and [limit = 1], and goes to one of the seven endpoints
    of [endpoints] with the method listed there.  In particular the
    router never calls [machines/increment_cycle_count/]. *)
Theorem lambda_handler_calls_well_formed :
  forall (ev : ButtonEvent) (s : St),
    Forall
      (fun q =>
         well_formed_call q /\
         url q <> "https://acme.leading2lean.com/api/1.0/machines/increment_cycle_count/"%string)
      (calls (lambda_handler http now ev s)).
Proof.
  intros ev s.
  assert (H : calls_all well_formed_call (lambda_handler http now ev)).
  { unfold lambda_handler. apply calls_all_bind; [apply calls_all_lift |].
    intros td s'.
    destruct (methods_get (methods http now) (clickType ev)) as [f|e] eqn:Hf.
    - rewrite bind_lift_Ok.
      apply calls_all_bind;
        [apply (well_formed_methods _ _ Hf) | intro; apply calls_all_ret].
    - rewrite bind_lift_Raise. constructor. }
  apply (Forall_impl _ (P := well_formed_call)); [| apply H].
  intros q Hw. split; [exact Hw |].
  destruct Hw as (_ & _ & _ & Hin). intros Hu. rewrite Hu in Hin.
  simpl in Hin.
  repeat (destruct Hin as [Hin|Hin]; [discriminate Hin |]).
  exact Hin.
Qed.

(** ** The order of the calls *)

Lemma reads_of_no_writes l : writes l = [] -> reads l = l.
Proof.
  induction l as [|[[] u p] l IH]; simpl; intros H;
    [reflexivity | now rewrite IH | discriminate H].
Qed.

Lemma reads_then_writes_bind {A B} (m : M St A) (k : A -> M St B) :
  (forall s, writes (calls (m s)) = []) ->
  (forall a s, reads_then_writes (calls (k a s))) ->
  forall s, reads_then_writes (calls (bind m k s)).
Proof.
  intros Hm Hk s. unfold bind, reads_then_writes.
  destruct (value (m s)) as [a|e]; cbn [calls].
  - rewrite reads_app, writes_app, Hm, (reads_of_no_writes _ (Hm s)).
    cbn [app]. rewrite <- app_assoc. f_equal. apply Hk.
  - now rewrite Hm, (reads_of_no_writes _ (Hm s)), app_nil_r.
Qed.

Lemma reads_then_writes_doPost {B} u d l (f : pyval -> B) s :
  reads_then_writes (calls (bind (doPost http u d l) (fun x => ret (f x)) s)).
Proof. rewrite calls_then_ret_of, doPost_run. reflexivity. Qed.

(** A step that reads or issues nothing, in front of what follows. *)
Ltac reading_step :=
  apply reads_then_writes_bind;
  [ intros ?s;
    first [ apply (no_writes 0), issues_lift
          | apply (no_writes 0), issues_clock
          | apply (no_writes 1), issues_doGet
          | apply writes_getOrderByLineCode ]
  | intros ?a ].

Lemma reads_then_writes_methods k f :
  methods_get (methods http now) k = Ok f ->
  forall td s, reads_then_writes (calls (f td s)).
Proof.
  unfold methods. cbn [methods_get]. intros H td.
  destruct (String.eqb "SINGLE" k).
  { injection H as <-. unfold executeIncrementProductCountByMachineCode,
      getMachineInfoByCode, getProductInfoById.
    do 4 reading_step.
    destruct (negb (truthy a2)); [reflexivity |].
    do 6 reading_step. apply reads_then_writes_doPost. }
  destruct (String.eqb "DOUBLE" k).
  { injection H as <-. unfold executeIncrementScrapCountByMachineCode,
      getMachineInfoByCode, getProductInfoById.
    do 4 reading_step.
    destruct (negb (truthy a2)); [reflexivity |].
    do 6 reading_step. apply reads_then_writes_doPost. }
  destruct (String.eqb "LONG" k); [| discriminate].
  injection H as <-. unfold executeLaunchCodeRedDispatchByMachineCode.
  reading_step. apply reads_then_writes_doPost.
Qed.

(** X2: in every invocation the reads come first: the list of calls is
    its reads followed by its writes, so no lookup is ever issued after
    the write. *)
Theorem lambda_handler_reads_then_writes :
  forall (ev : ButtonEvent) (s : St),
    calls (lambda_handler http now ev s)
    = reads (calls (lambda_handler http now ev s))
      ++ writes (calls (lambda_handler http now ev s)).
Proof.
  intros ev s. change (reads_then_writes (calls (lambda_handler http now ev s))).
  unfold lambda_handler.
  destruct (getThingData (serialNumber ev)) as [td|e];
    [rewrite bind_lift_Ok | reflexivity].
  destruct (methods_get (methods http now) (clickType ev)) as [f|e] eqn:Hf;
    [rewrite bind_lift_Ok | reflexivity].
  rewrite calls_then_ret. apply (reads_then_writes_methods _ _ Hf).
Qed.

(** ** More on response normalization *)

(** X3: on an envelope whose [success] and [data] are both truthy,
    [finishRequest] with limit 1 returns the first element of a list,
    returns a string or an object as it is, and raises [TypeError] on a
    number or a boolean, because [len] is applied before the [isinstance]
    test; with any other limit it returns [data] as it is. *)
Theorem finishRequest_truthy_data :
  forall envelope success data limit,
    dict_get envelope "success" = Some success ->
    truthy success = true ->
    dict_get envelope "data" = Some data ->
    truthy data = true ->
    finishRequest (Body (PyDict envelope)) limit =
    if limit =? 1 then
      match data with
      | PyList (x :: _) => Ok x
      | PyStr _ | PyDict _ => Ok data
      | _ => Raise TypeError
      end
    else Ok data.
Proof.
  intros envelope success data limit Hs Hts Hd Htd.
  unfold finishRequest, json, subscript, rbind.
  rewrite Hs, Hts, Hd, Htd.
  destruct (limit =? 1); [| reflexivity].
  destruct data as [| b | n | x | str | [|y l] | d]; cbn [py_len is_list];
    try reflexivity; try discriminate Htd.
  - now rewrite andb_false_r.
  - now rewrite andb_false_r.
Qed.

(** X4: the exceptions of [finishRequest] and their causes: [ValueError]
    for a body that is not JSON; [TypeError] for JSON that is not an
    object; [KeyError('success')] for an object without [success];
    [KeyError('data')] when [success] is truthy and [data] is missing;
    [TypeError] when both are truthy, the limit is 1 and [data] has no
    length.  There is no other. *)
Theorem finishRequest_raises :
  forall r limit e,
    finishRequest r limit = Raise e ->
    (r = NotJson /\ e = ValueError) \/
    (exists j, r = Body j /\ (forall d, j <> PyDict d) /\ e = TypeError) \/
    (exists d, r = Body (PyDict d) /\ dict_get d "success" = None /\
               e = KeyError "success") \/
    (exists d success,
        r = Body (PyDict d) /\ dict_get d "success" = Some success /\
        truthy success = true /\ dict_get d "data" = None /\
        e = KeyError "data") \/
    (exists d success data,
        r = Body (PyDict d) /\ dict_get d "success" = Some success /\
        truthy success = true /\ dict_get d "data" = Some data /\
        truthy data = true /\ limit = 1 /\ py_len data = Raise TypeError /\
        e = TypeError).
Proof.
  intros r limit e. unfold finishRequest, json, rbind.
  destruct r as [j|]; [| intros [= <-]; now left].
  destruct j as [| b | n | x | str | l | d]; cbn [subscript];
    try (intros [= <-]; right; left; eexists; repeat split;
         intros d; discriminate).
  destruct (dict_get d "success") as [success|] eqn:Hs;
    [| intros [= <-]; right; right; left; now exists d].
  destruct (truthy success) eqn:Hts; [| discriminate].
  destruct (dict_get d "data") as [data|] eqn:Hd;
    [| intros [= <-]; right; right; right; left; now exists d, success].
  destruct (truthy data) eqn:Htd; [| discriminate].
  destruct (limit =? 1) eqn:Hl; [| discriminate].
  apply Z.eqb_eq in Hl.
  destruct data as [| b | n | x | str | [|y l] | d']; cbn [py_len is_list];
    try discriminate;
    try (rewrite andb_false_r; discriminate);
    intros [= <-]; right; right; right; right;
    exists d, success; eexists; repeat split; eauto.
Qed.

(** ** The write-only handlers *)

Lemma write_only_handler_run u d (k : pyval -> pyval) s :
  bind (doPost http u d 1) (fun result => ret (k result)) s =
  let q := mkRequest POST (URL ++ u)%string
             (dict_merge [("auth", PyStr AUTH); ("site", PyStr SITEID);
                          ("limit", PyInt 1)] d) in
  mkOutcome
    (match fst (http q s) with
     | Some r =>
         match finishRequest r 1 with
         | Ok x => Ok (k x)
         | Raise e => Raise e
         end
     | None => Raise RequestException
     end)
    (snd (http q s)) [q].
Proof.
  unfold bind. rewrite doPost_run. cbv zeta. cbn [value final calls].
  destruct (fst (http _ s)) as [r|]; [| reflexivity].
  destruct (finishRequest r 1); reflexivity.
Qed.

(** X5: the cycle-count handler, for every [thingData] that carries a
    machine code, issues exactly one call, the write to
    [machines/increment_cycle_count/] with the code, [cyclecount = 1] and
    [skip_lastupdated = 1]; it returns [{success: True, result: r}] with
    [r] the normalized answer, or raises what the call or the
    normalization raises.  Without a machine code it raises before any
    call. *)
Theorem executeIncrementMachineCycleCountByMachineCode_run :
  forall td s,
    (forall code,
        subscript td "machineCode" = Ok code ->
        executeIncrementMachineCycleCountByMachineCode http td s =
        mkOutcome
          (match fst (http (increment_cycle_count code) s) with
           | Some r =>
               match finishRequest r 1 with
               | Ok x => Ok (PyDict [("success", PyBool true); ("result", x)])
               | Raise e => Raise e
               end
           | None => Raise RequestException
           end)
          (snd (http (increment_cycle_count code) s))
          [increment_cycle_count code]) /\
    (forall e,
        subscript td "machineCode" = Raise e ->
        executeIncrementMachineCycleCountByMachineCode http td s =
        mkOutcome (Raise e) s []).
Proof.
  intros td s. unfold executeIncrementMachineCycleCountByMachineCode.
  split.
  - intros code H. rewrite H, bind_lift_Ok, write_only_handler_run.
    reflexivity.
  - intros e H. rewrite H. apply bind_lift_Raise.
Qed.

(** X6: the dispatch handler reports success whatever the API answers:
    when the answer to the write is an envelope whose [success] is falsy,
    the handler still returns [{success: True, result: None}]. *)
Theorem executeLaunchCodeRedDispatchByMachineCode_rejected :
  forall td code s envelope success s',
    subscript td "machineCode" = Ok code ->
    http (open_dispatch code) s = (Some (Body (PyDict envelope)), s') ->
    dict_get envelope "success" = Some success ->
    truthy success = false ->
    executeLaunchCodeRedDispatchByMachineCode http td s =
    mkOutcome
      (Ok (PyDict [("success", PyBool true); ("result", PyNone)]))
      s' [open_dispatch code].
Proof.
  intros td code s envelope success s' Hc Hq Hs Ht.
  unfold executeLaunchCodeRedDispatchByMachineCode.
  rewrite Hc, bind_lift_Ok, write_only_handler_run. cbv zeta.
  change (mkRequest POST (URL ++ "dispatches/open/")%string _)
    with (open_dispatch code).
  rewrite Hq. cbn [fst snd].
  unfold finishRequest, json, subscript, rbind. now rewrite Hs, Ht.
Qed.

(** ** More on the router *)

Lemma getMachineInfoByCode_calls code s :
  calls (getMachineInfoByCode http code s) = [machine_query code].
Proof. unfold getMachineInfoByCode. rewrite doGet_run. reflexivity. Qed.

(** X7: for a button of the table and a click type other than SINGLE,
    DOUBLE and LONG, the router raises [KeyError] with the click type,
    issues no call and leaves the world as it is. *)
Theorem lambda_handler_unknown_clickType :
  forall ev code s,
    dict_get machineCodeLineMatrix (serialNumber ev) = Some code ->
    clickType ev <> "SINGLE"%string ->
    clickType ev <> "DOUBLE"%string ->
    clickType ev <> "LONG"%string ->
    lambda_handler http now ev s
    = mkOutcome (Raise (KeyError (clickType ev))) s [].
Proof.
  intros ev code s Hs H1 H2 H3. unfold lambda_handler.
  rewrite (getThingData_known _ _ Hs), bind_lift_Ok.
  unfold methods. cbn [methods_get].
  destruct (String.eqb_spec "SINGLE" (clickType ev)) as [E|_];
    [now destruct H1 |].
  destruct (String.eqb_spec "DOUBLE" (clickType ev)) as [E|_];
    [now destruct H2 |].
  destruct (String.eqb_spec "LONG" (clickType ev)) as [E|_];
    [now destruct H3 |].
  apply bind_lift_Raise.
Qed.

(** X8: when the router returns a value, that value is the response with
    status code 200; the serial number is in the table, the click type
    is SINGLE, DOUBLE or LONG, and the handler of the click type has
    returned.  Every other invocation ends with an exception. *)
Theorem lambda_handler_returns_only_200 :
  forall ev s v,
    value (lambda_handler http now ev s) = Ok v ->
    v = PyDict [("statusCode", PyInt 200);
                ("body", PyStr (clickType ev ++ " event run for button "
                                ++ serialNumber ev)%string)] /\
    exists code handler action_result,
      dict_get machineCodeLineMatrix (serialNumber ev) = Some code /\
      (clickType ev = "SINGLE"%string \/ clickType ev = "DOUBLE"%string \/
       clickType ev = "LONG"%string) /\
      methods_get (methods http now) (clickType ev) = Ok handler /\
      value (handler (PyDict [("machineCode", code)]) s) = Ok action_result.
Proof.
  intros ev s v. unfold lambda_handler, getThingData, subscript, rbind.
  destruct (dict_get machineCodeLineMatrix (serialNumber ev)) as [code|];
    [rewrite bind_lift_Ok | discriminate].
  destruct (methods_get (methods http now) (clickType ev)) as [f|e] eqn:Hf;
    [rewrite bind_lift_Ok | discriminate].
  rewrite value_then_ret.
  destruct (value (f (PyDict [("machineCode", code)]) s)) as [r|e] eqn:Hr;
    [| discriminate].
  intros [= <-]. split; [reflexivity |].
  exists code, f, r. repeat split; trivial.
  revert Hf. unfold methods. cbn [methods_get].
  destruct (String.eqb_spec "SINGLE" (clickType ev)) as [E|_]; [auto |].
  destruct (String.eqb_spec "DOUBLE" (clickType ev)) as [E|_]; [auto |].
  destruct (String.eqb_spec "LONG" (clickType ev)) as [E|_]; [auto |].
  discriminate.
Qed.

(** X9: when the API cannot be reached, every click of a button of the
    table ends with [RequestException] after exactly one call: the
    machine lookup for a single or double click, the write itself for a
    long click. *)
Theorem lambda_handler_api_unreachable :
  (forall q s, fst (http q s) = None) ->
  forall ev code s,
    dict_get machineCodeLineMatrix (serialNumber ev) = Some code ->
    (clickType ev = "SINGLE"%string \/ clickType ev = "DOUBLE"%string ->
     value (lambda_handler http now ev s) = Raise RequestException /\
     calls (lambda_handler http now ev s) = [machine_query code]) /\
    (clickType ev = "LONG"%string ->
     value (lambda_handler http now ev s) = Raise RequestException /\
     calls (lambda_handler http now ev s) = [open_dispatch code]).
Proof.
  intros Hdown ev code s Hs.
  assert (Hm : getMachineInfoByCode http code s
               = mkOutcome (Raise RequestException)
                   (snd (http (machine_query code) s)) [machine_query code]).
  { unfold getMachineInfoByCode. rewrite doGet_run. cbv zeta.
    change (mkRequest GET (URL ++ "machines/")%string _)
      with (machine_query code).
    now rewrite Hdown. }
  split.
  - intros Hc.
    assert (exists f,
               methods_get (methods http now) (clickType ev) = Ok f /\
               f (PyDict [("machineCode", code)]) s
               = mkOutcome (Raise RequestException)
                   (snd (http (machine_query code) s)) [machine_query code])
      as (f & Hf & Hrun).
    { destruct Hc as [Hc|Hc]; rewrite Hc; eexists;
        (split; [reflexivity |]).
      - unfold executeIncrementProductCountByMachineCode.
        cbn [subscript dict_get String.eqb Ascii.eqb Bool.eqb].
        rewrite bind_lift_Ok. unfold bind at 1. now rewrite Hm.
      - unfold executeIncrementScrapCountByMachineCode.
        cbn [subscript dict_get String.eqb Ascii.eqb Bool.eqb].
        rewrite bind_lift_Ok. unfold bind at 1. now rewrite Hm. }
    destruct (lambda_handler_runs ev code f s Hs Hf) as (Ec & _ & Ev).
    now rewrite Ec, Ev, Hrun.
  - intros Hc.
    destruct (lambda_handler_runs ev code
                (executeLaunchCodeRedDispatchByMachineCode http) s Hs)
      as (Ec & _ & Ev); [rewrite Hc; apply methods_LONG |].
    rewrite Ec, Ev. unfold executeLaunchCodeRedDispatchByMachineCode.
    cbn [subscript dict_get String.eqb Ascii.eqb Bool.eqb].
    rewrite bind_lift_Ok, write_only_handler_run. cbv zeta.
    change (mkRequest POST (URL ++ "dispatches/open/")%string _)
      with (open_dispatch code).
    now rewrite Hdown.
Qed.

(** X10: when the machine lookup returns something that has no
    [linecode] (nothing at all, for a machine the API does not find), a
    single or double click ends with the exception of that subscript
    after the machine lookup alone: order resolution is not attempted and
    nothing is written. *)
Theorem lambda_handler_machine_without_line :
  forall ev code mi e s,
    clickType ev = "SINGLE"%string \/ clickType ev = "DOUBLE"%string ->
    dict_get machineCodeLineMatrix (serialNumber ev) = Some code ->
    value (getMachineInfoByCode http code s) = Ok mi ->
    subscript mi "linecode" = Raise e ->
    value (lambda_handler http now ev s) = Raise e /\
    calls (lambda_handler http now ev s) = [machine_query code].
Proof.
  intros ev code mi e s Hc Hs Hm Hl.
  assert (exists f,
             methods_get (methods http now) (clickType ev) = Ok f /\
             value (f (PyDict [("machineCode", code)]) s) = Raise e /\
             calls (f (PyDict [("machineCode", code)]) s)
             = [machine_query code])
    as (f & Hf & Hv & Hcalls).
  { destruct Hc as [Hc|Hc]; rewrite Hc; eexists;
      (split; [reflexivity |]).
    - unfold executeIncrementProductCountByMachineCode.
      cbn [subscript dict_get String.eqb Ascii.eqb Bool.eqb].
      rewrite bind_lift_Ok, (bind_Ok _ _ _ _ Hm).
      fold (subscript mi "linecode"). rewrite Hl, bind_lift_Raise.
      cbn [value calls]. now rewrite getMachineInfoByCode_calls.
    - unfold executeIncrementScrapCountByMachineCode.
      cbn [subscript dict_get String.eqb Ascii.eqb Bool.eqb].
      rewrite bind_lift_Ok, (bind_Ok _ _ _ _ Hm).
      fold (subscript mi "linecode"). rewrite Hl, bind_lift_Raise.
      cbn [value calls]. now rewrite getMachineInfoByCode_calls. }
  destruct (lambda_handler_runs ev code f s Hs Hf) as (Ec & _ & Ev).
  now rewrite Ec, Ev, Hv, Hcalls.
Qed.

(** ** More on order resolution *)


(** X12: when there is no current order and the line found has no [id],
    order resolution raises the exception of [line['id']] after the
    current-order query and the line lookup; it does not return [None],
    so the handlers do not report 'No order found'. *)
Theorem getOrderByLineCode_line_without_id :
  forall lc s cur line e,
    value (getCurrentOrderByLineCode http lc s) = Ok cur ->
    truthy cur = false ->
    value (getLineInfoByCode http lc
             (final (getCurrentOrderByLineCode http lc s))) = Ok line ->
    truthy line = true ->
    subscript line "id" = Raise e ->
    value (getOrderByLineCode http lc s) = Raise e /\
    calls (getOrderByLineCode http lc s)
    = [current_order_query lc; line_query lc].
Proof.
  intros lc s cur line e Hc Ht Hl Htl Hi.
  rewrite (getOrderByLineCode_fallback _ _ _ Hc Ht). cbv zeta.
  unfold getNextOrderByLineCode.
  rewrite (bind_Ok _ _ _ _ Hl), Htl. cbn [negb].
  rewrite Hi, bind_lift_Raise. cbn [value calls].
  now rewrite getLineInfoByCode_calls.
Qed.

(** ** More on the counting handlers *)

Lemma getProductInfoById_calls id s :
  calls (getProductInfoById http id s) = [product_query id].
Proof. unfold getProductInfoById. rewrite doGet_run. reflexivity. Qed.

(** Closes a path that ends before the write: nothing is written. *)
Ltac stops_short :=
  run;
  try match goal with
      | H : value (?m ?s) = Raise ?e |- context [bind ?m ?k ?s] =>
          rewrite (bind_Raise m k s e H)
      end;
  try match goal with
      | H : ?r = Raise ?e |- context [lift ?r] =>
          rewrite H, bind_lift_Raise
      end;
  cbn [calls ret];
  rewrite ?writes_app, ?writes_getMachineInfoByCode,
    ?writes_getOrderByLineCode, ?writes_getProductInfoById;
  reflexivity.

(** Goes through a counting handler step by step: either a step stops
    the run short of the write, or everything was resolved. *)
Ltac resolved_or_short :=
  intros td code s Hc Hw;
  destruct (value (getMachineInfoByCode http code s)) as [mi|e] eqn:Hm;
    [| destruct Hw; stops_short];
  destruct (subscript mi "linecode") as [lc|e] eqn:Hl;
    [| destruct Hw; stops_short];
  destruct (value (getOrderByLineCode http lc
                     (final (getMachineInfoByCode http code s))))
    as [order|e] eqn:Ho;
    [| destruct Hw; stops_short];
  destruct (truthy order) eqn:Ht;
    [| destruct Hw; stops_short];
  destruct (subscript order "product") as [id|e] eqn:Hp;
    [| destruct Hw; stops_short];
  destruct (value (getProductInfoById http id
                     (final (getOrderByLineCode http lc
                               (final (getMachineInfoByCode http code s))))))
    as [product|e] eqn:Hq;
    [| destruct Hw; stops_short];
  destruct (subscript product "code") as [productcode|e] eqn:Hk;
    [| destruct Hw; stops_short];
  exists mi, lc, order, id, product, productcode; repeat split; trivial.

Lemma executeIncrementProductCountByMachineCode_resolved :
  forall td code s,
    subscript td "machineCode" = Ok code ->
    writes (calls (executeIncrementProductCountByMachineCode http now td s))
    <> [] ->
    exists mi lc order id product productcode,
      value (getMachineInfoByCode http code s) = Ok mi /\
      subscript mi "linecode" = Ok lc /\
      value (getOrderByLineCode http lc
               (final (getMachineInfoByCode http code s))) = Ok order /\
      truthy order = true /\
      subscript order "product" = Ok id /\
      value (getProductInfoById http id
               (final (getOrderByLineCode http lc
                         (final (getMachineInfoByCode http code s)))))
      = Ok product /\
      subscript product "code" = Ok productcode.
Proof.
  unfold executeIncrementProductCountByMachineCode. resolved_or_short.
Qed.

Lemma executeIncrementScrapCountByMachineCode_resolved :
  forall td code s,
    subscript td "machineCode" = Ok code ->
    writes (calls (executeIncrementScrapCountByMachineCode http now td s))
    <> [] ->
    exists mi lc order id product productcode,
      value (getMachineInfoByCode http code s) = Ok mi /\
      subscript mi "linecode" = Ok lc /\
      value (getOrderByLineCode http lc
               (final (getMachineInfoByCode http code s))) = Ok order /\
      truthy order = true /\
      subscript order "product" = Ok id /\
      value (getProductInfoById http id
               (final (getOrderByLineCode http lc
                         (final (getMachineInfoByCode http code s)))))
      = Ok product /\
      subscript product "code" = Ok productcode.
Proof.
  unfold executeIncrementScrapCountByMachineCode. resolved_or_short.
Qed.

(** X13: a single or double click writes only when everything was
    resolved: if the invocation issues a write at all, then the machine
    lookup returned a record with a [linecode], order resolution on that
    line returned a truthy order with a [product], and the product lookup
    returned a record with a [code]. *)
Theorem click_writes_only_when_resolved :
  forall ev code s,
    clickType ev = "SINGLE"%string \/ clickType ev = "DOUBLE"%string ->
    dict_get machineCodeLineMatrix (serialNumber ev) = Some code ->
    writes (calls (lambda_handler http now ev s)) <> [] ->
    exists mi lc order id product productcode,
      value (getMachineInfoByCode http code s) = Ok mi /\
      subscript mi "linecode" = Ok lc /\
      value (getOrderByLineCode http lc
               (final (getMachineInfoByCode http code s))) = Ok order /\
      truthy order = true /\
      subscript order "product" = Ok id /\
      value (getProductInfoById http id
               (final (getOrderByLineCode http lc
                         (final (getMachineInfoByCode http code s)))))
      = Ok product /\
      subscript product "code" = Ok productcode.
Proof.
  intros ev code s Hc Hs Hw. destruct Hc as [Hc|Hc].
  - destruct (lambda_handler_runs ev code
                (executeIncrementProductCountByMachineCode http now) s Hs)
      as [E _]; [rewrite Hc; apply methods_SINGLE |].
    rewrite E in Hw.
    now apply (executeIncrementProductCountByMachineCode_resolved
                 (PyDict [("machineCode", code)])).
  - destruct (lambda_handler_runs ev code
                (executeIncrementScrapCountByMachineCode http now) s Hs)
      as [E _]; [rewrite Hc; apply methods_DOUBLE |].
    rewrite E in Hw.
    now apply (executeIncrementScrapCountByMachineCode_resolved
                 (PyDict [("machineCode", code)])).
Qed.

(** X14: the write of a resolved click carries, next to the line and the
    product code, a [start] and an [end] that are two successive readings
    of the clock, [start] first, both taken after the product lookup and
    before the write; and the fields come in the order [auth], [site],
    [limit], [linecode], [start], [end], [productcode], then [actual]
    for a single click or [scrap] for a double click. *)
Theorem click_write_is_stamped_twice :
  forall ev code mi lc order id product productcode s,
    dict_get machineCodeLineMatrix (serialNumber ev) = Some code ->
    value (getMachineInfoByCode http code s) = Ok mi ->
    subscript mi "linecode" = Ok lc ->
    value (getOrderByLineCode http lc
             (final (getMachineInfoByCode http code s))) = Ok order ->
    truthy order = true ->
    subscript order "product" = Ok id ->
    value (getProductInfoById http id
             (final (getOrderByLineCode http lc
                       (final (getMachineInfoByCode http code s)))))
    = Ok product ->
    subscript product "code" = Ok productcode ->
    let s3 := final (getProductInfoById http id
                       (final (getOrderByLineCode http lc
                                 (final (getMachineInfoByCode http code s))))) in
    let start := PyStr (fst (now s3)) in
    let end_ := PyStr (fst (now (snd (now s3)))) in
    (clickType ev = "SINGLE"%string ->
     writes (calls (lambda_handler http now ev s))
     = [record_details lc start end_ productcode "actual"]) /\
    (clickType ev = "DOUBLE"%string ->
     writes (calls (lambda_handler http now ev s))
     = [record_details lc start end_ productcode "scrap"]).
Proof.
  intros ev code mi lc order id product productcode s
         Hs Hm Hl Ho Ht Hp Hq Hk s3 start end_.
  split; intros Hc.
  - destruct (lambda_handler_runs ev code
                (executeIncrementProductCountByMachineCode http now) s Hs)
      as [E _]; [rewrite Hc; apply methods_SINGLE |].
    rewrite E.
    apply (executeIncrementProductCountByMachineCode_writes
             (PyDict [("machineCode", code)]) code mi lc order id product
             productcode s eq_refl Hm Hl Ho Ht Hp Hq Hk).
  - destruct (lambda_handler_runs ev code
                (executeIncrementScrapCountByMachineCode http now) s Hs)
      as [E _]; [rewrite Hc; apply methods_DOUBLE |].
    rewrite E.
    apply (executeIncrementScrapCountByMachineCode_writes
             (PyDict [("machineCode", code)]) code mi lc order id product
             productcode s eq_refl Hm Hl Ho Ht Hp Hq Hk).
Qed.

(** ** The payload of a call *)

Lemma dict_get_dict_set d k v k' :
  dict_get (dict_set d k v) k'
  = if String.eqb k k' then Some v else dict_get d k'.
Proof.
  induction d as [|[k1 v1] d IH]; simpl; [reflexivity |].
  destruct (String.eqb_spec k1 k) as [->|Hn]; simpl.
  - now destruct (String.eqb k k').
  - rewrite IH.
    destruct (String.eqb_spec k1 k') as [->|_]; [| reflexivity].
    destruct (String.eqb_spec k k') as [->|_]; [now destruct Hn | reflexivity].
Qed.

Lemma dict_get_absent d k : ~ In k (map fst d) -> dict_get d k = None.
Proof.
  induction d as [|[k1 v1] d IH]; simpl; [reflexivity |].
  intros H. destruct (String.eqb_spec k1 k) as [->|_].
  - destruct H. now left.
  - apply IH. intros Hin. apply H. now right.
Qed.

Lemma dict_get_dict_merge base d k :
  NoDup (map fst d) ->
  dict_get (dict_merge base d) k
  = match dict_get d k with
    | Some v => Some v
    | None => dict_get base k
    end.
Proof.
  unfold dict_merge. revert base.
  induction d as [|[k1 v1] d IH]; intros base Hd; simpl; [reflexivity |].
  inversion Hd as [|? ? Hnot Hd']; subst.
  rewrite (IH _ Hd'), dict_get_dict_set.
  destruct (String.eqb_spec k1 k) as [->|_]; [| reflexivity].
  now rewrite (dict_get_absent _ _ Hnot).
Qed.

(** X15: [doGet] and [doPost] issue exactly one call, to the base URL
    followed by the path, and in its payload a field of the caller wins
    over the fixed [auth], [site] and [limit]: a key of [data] has the
    value [data] gives it, any other key has the fixed value, if any. *)
Theorem doGet_doPost_payload :
  forall path data limit s,
    NoDup (map fst data) ->
    (exists q,
        calls (doGet http path data limit s) = [q] /\
        meth q = GET /\
        url q = ("https://acme.leading2lean.com/api/1.0/" ++ path)%string /\
        forall k,
          dict_get (payload q) k
          = match dict_get data k with
            | Some v => Some v
            | None =>
                dict_get [("auth", PyStr "abc123"); ("site", PyStr "1");
                          ("limit", PyInt limit)] k
            end) /\
    (exists q,
        calls (doPost http path data limit s) = [q] /\
        meth q = POST /\
        url q = ("https://acme.leading2lean.com/api/1.0/" ++ path)%string /\
        forall k,
          dict_get (payload q) k
          = match dict_get data k with
            | Some v => Some v
            | None =>
                dict_get [("auth", PyStr "abc123"); ("site", PyStr "1");
                          ("limit", PyInt limit)] k
            end).
Proof.
  intros path data limit s Hd. split.
  - rewrite doGet_run. cbv zeta. cbn [calls]. eexists.
    split; [reflexivity |]. repeat split.
    intros k. cbn [payload]. apply (dict_get_dict_merge _ _ _ Hd).
  - rewrite doPost_run. cbv zeta. cbn [calls]. eexists.
    split; [reflexivity |]. repeat split.
    intros k. cbn [payload]. apply (dict_get_dict_merge _ _ _ Hd).
Qed.

End Properties.

(** * Concrete runs *)

(** [len] comes before [isinstance]: a number as [data] raises. *)
Example finishRequest_number :
  finishRequest
    (Body (PyDict [("success", PyBool true); ("data", PyInt 5)])) 1
  = Raise TypeError.
Proof. reflexivity. Qed.

(** A single record as [data] is returned as it is. *)
Example finishRequest_record :
  finishRequest
    (Body (PyDict [("success", PyBool true); ("data", order_7)])) 1
  = Ok order_7.
Proof. reflexivity. Qed.

Example finishRequest_not_json : finishRequest NotJson 1 = Raise ValueError.
Proof. reflexivity. Qed.

(** A click type that is not in [methods] raises before any call. *)
Example lambda_handler_unknown_click :
  lambda_handler (table_http api_current) sample_now
    (mkEvent "BUTTON-01-SERIAL" "TRIPLE") 0%nat
  = mkOutcome (Raise (KeyError "TRIPLE")) 0%nat [].
Proof. reflexivity. Qed.

(** The six calls of a single click on a line without a current order. *)
Example single_click_six_calls :
  map url (calls (lambda_handler (table_http api_next) sample_now
                    single_01 0%nat))
  = [ "https://acme.leading2lean.com/api/1.0/machines/";
      "https://acme.leading2lean.com/api/1.0/buildsequence/get_current_order_on_line/";
      "https://acme.leading2lean.com/api/1.0/lines/";
      "https://acme.leading2lean.com/api/1.0/buildsequence/";
      "https://acme.leading2lean.com/api/1.0/productcomponents/";
      "https://acme.leading2lean.com/api/1.0/pitchdetails/record_details/"
    ]%string.
Proof. reflexivity. Qed.

(** C7 as stated fails: a single click on a line with no current order
    but a scheduled one issues six calls, five of them reads, so the
    bound of three calls with two reads does not hold. *)
Lemma single_click_issues_six_calls :
  ~ ((List.length
        (calls (lambda_handler (table_http api_next) sample_now single_01 0%nat))
      <= 3)%nat /\
     (List.length
        (reads (calls (lambda_handler (table_http api_next) sample_now
                         single_01 0%nat)))
      <= 2)%nat /\
     (List.length
        (writes (calls (lambda_handler (table_http api_next) sample_now
                          single_01 0%nat)))
      <= 1)%nat).
Proof. intros [H _]. vm_compute in H. lia. Qed.

(** C1 as stated fails: the line of the button resolves to an order, but
    the API does not find the product of the order, so [product['code']]
    raises before the write and no write call is issued, for a single
    click and for a double click alike. *)
Lemma click_with_order_may_write_nothing :
  dict_get machineCodeLineMatrix (serialNumber single_01)
  = Some (PyStr "GreenMachine") /\
  value (getMachineInfoByCode (table_http api_no_product)
           (PyStr "GreenMachine") 0%nat) = Ok machine_L1 /\
  subscript machine_L1 "linecode" = Ok (PyStr "L1") /\
  value (getOrderByLineCode (table_http api_no_product) (PyStr "L1")
           (final (getMachineInfoByCode (table_http api_no_product)
                     (PyStr "GreenMachine") 0%nat))) = Ok order_7 /\
  truthy order_7 = true /\
  value (lambda_handler (table_http api_no_product) sample_now single_01 0%nat)
  = Raise TypeError /\
  writes (calls (lambda_handler (table_http api_no_product) sample_now
                   single_01 0%nat)) = [] /\
  writes (calls (lambda_handler (table_http api_no_product) sample_now
                   double_01 0%nat)) = [].
Proof. repeat split. Qed.

(** C8 as stated fails: the handler of a single click returns a success
    with the recorded pitch in one world and the 'No order found' failure
    in another, and the router answers both with the same body, which is
    a plain string. *)
Lemma action_result_not_in_body :
  value (executeIncrementProductCountByMachineCode (table_http api_current)
           sample_now green 0%nat)
  = Ok (PyDict [("success", PyBool true); ("result", pitch_1)]) /\
  value (executeIncrementProductCountByMachineCode (table_http api_no_order)
           sample_now green 0%nat)
  = Ok (PyDict [("success", PyBool false);
                ("error", PyStr "No order found")]) /\
  value (lambda_handler (table_http api_current) sample_now single_01 0%nat)
  = Ok (PyDict [("statusCode", PyInt 200);
                ("body",
                 PyStr "SINGLE event run for button BUTTON-01-SERIAL")]) /\
  value (lambda_handler (table_http api_no_order) sample_now single_01 0%nat)
  = Ok (PyDict [("statusCode", PyInt 200);
                ("body",
                 PyStr "SINGLE event run for button BUTTON-01-SERIAL")]).
Proof. repeat split. Qed.

(** C9 as stated fails: the serial number is known and the click type is
    SINGLE, but the machine lookup finds nothing, [machineInfo['linecode']]
    raises, and the router returns no response at all. *)
Lemma known_button_may_get_no_response :
  dict_get machineCodeLineMatrix (serialNumber single_01)
  = Some (PyStr "GreenMachine") /\
  clickType single_01 = "SINGLE"%string /\
  value (lambda_handler (table_http api_no_machine) sample_now single_01 0%nat)
  = Raise TypeError /\
  ~ (exists r,
        value (lambda_handler (table_http api_no_machine) sample_now
                 single_01 0%nat) = Ok r).
Proof. repeat split. intros [r H]. discriminate H. Qed.

(** C3 on three envelopes: two orders, no data, a failure. *)
Lemma finishRequest_normalizes_witness :
  finishRequest (found [order_7; order_8]) 1 = Ok order_7 /\
  finishRequest (found []) 1 = Ok PyNone /\
  finishRequest failed 1 = Ok PyNone.
Proof.
  split; [| split].
  - apply (proj1 (finishRequest_normalizes
                    [("success", PyBool true);
                     ("data", PyList [order_7; order_8])]) order_7 order_8);
      reflexivity.
  - apply (proj1 (proj2 (finishRequest_normalizes
                           [("success", PyBool true); ("data", PyList [])]))
             1);
      reflexivity.
  - apply (proj2 (proj2 (finishRequest_normalizes
                           [("success", PyBool false);
                            ("error", PyStr "not found")])) 1);
      reflexivity.
Defined.

(** C4 on the second button and on a button that is not in the table. *)
Lemma getThingData_total_on_table_only_witness :
  getThingData "BUTTON-02-SERIAL"
  = Ok (PyDict [("machineCode", PyStr "BlueMachine")]) /\
  getThingData "BUTTON-99-SERIAL" = Raise (KeyError "BUTTON-99-SERIAL") /\
  lambda_handler (table_http api_current) sample_now
    (mkEvent "BUTTON-99-SERIAL" "LONG") 0%nat
  = mkOutcome (Raise (KeyError "BUTTON-99-SERIAL")) 0%nat [].
Proof.
  destruct (getThingData_total_on_table_only nat (table_http api_current)
              sample_now) as [_ H].
  split.
  - apply (proj1 (H "BUTTON-02-SERIAL"%string)). simpl. right. left.
    reflexivity.
  - assert (Hn : forall code,
               ~ In ("BUTTON-99-SERIAL"%string, code) machineCodeLineMatrix).
    { intros code Hin. simpl in Hin.
      destruct Hin as [E|[E|[E|[E|[]]]]]; discriminate E. }
    destruct (proj2 (H "BUTTON-99-SERIAL"%string) Hn) as [E1 E2].
    split; [exact E1 |]. apply E2. reflexivity.
Defined.

(** C5 on a long click of the first button. *)
Lemma long_click_opens_one_dispatch_witness :
  calls (executeLaunchCodeRedDispatchByMachineCode (table_http api_current)
           green 0%nat)
  = [open_dispatch (PyStr "GreenMachine")] /\
  calls (lambda_handler (table_http api_current) sample_now long_01 0%nat)
  = [open_dispatch (PyStr "GreenMachine")].
Proof.
  destruct (long_click_opens_one_dispatch nat (table_http api_current)
              sample_now) as [H1 H2].
  split.
  - apply H1. reflexivity.
  - apply (H2 long_01 (PyStr "GreenMachine") 0%nat); reflexivity.
Defined.

(** C6 on a line with a current order and on a line with two scheduled
    orders only. *)
Lemma getOrderByLineCode_prefers_current_witness :
  value (getOrderByLineCode (table_http api_current) (PyStr "L1") 1%nat)
  = Ok order_7 /\
  calls (getOrderByLineCode (table_http api_current) (PyStr "L1") 1%nat)
  = [current_order_query (PyStr "L1")] /\
  calls (getOrderByLineCode (table_http api_next) (PyStr "L1") 1%nat)
  = [current_order_query (PyStr "L1"); line_query (PyStr "L1");
     buildsequence_query (PyInt 3)] /\
  value (getOrderByLineCode (table_http api_next) (PyStr "L1") 1%nat)
  = Ok order_7 /\
  (exists cur,
      value (getCurrentOrderByLineCode (table_http api_next) (PyStr "L1")
               1%nat) = Ok cur /\
      truthy cur = false).
Proof.
  destruct (getOrderByLineCode_prefers_current nat (table_http api_current)
              (PyStr "L1") 1%nat) as [Ha _].
  destruct (getOrderByLineCode_prefers_current nat (table_http api_next)
              (PyStr "L1") 1%nat) as (_ & Hb & Hc).
  destruct (Ha order_7 eq_refl eq_refl) as (Hv & _ & Hcalls).
  destruct (Hc PyNone line_L1 (PyInt 3)
              [("success", PyBool true); ("data", PyList [order_7; order_8])]
              4%nat eq_refl eq_refl eq_refl eq_refl eq_refl eq_refl eq_refl)
    as (Hcalls' & Hfirst & _).
  split; [exact Hv |]. split; [exact Hcalls |]. split; [exact Hcalls' |].
  split.
  - apply (Hfirst order_7 [order_8]); reflexivity.
  - apply (Hb (buildsequence_query (PyInt 3))).
    + rewrite Hcalls'. simpl. right. right. left. reflexivity.
    + reflexivity.
Defined.

(** C1 on a single and a double click of the first button, whose line
    has a current order of a known product. *)
Lemma click_with_order_and_product_writes_once_witness :
  (exists w,
      writes (calls (lambda_handler (table_http api_current) sample_now
                       single_01 0%nat)) = [w] /\
      meth w = POST /\
      url w = "https://acme.leading2lean.com/api/1.0/pitchdetails/record_details/"%string /\
      dict_get (payload w) "linecode" = Some (PyStr "L1") /\
      dict_get (payload w) "productcode" = Some (PyStr "P-7") /\
      dict_get (payload w) "actual" = Some (PyInt 1) /\
      dict_get (payload w) "scrap" = None) /\
  (exists w,
      writes (calls (lambda_handler (table_http api_current) sample_now
                       double_01 0%nat)) = [w] /\
      meth w = POST /\
      url w = "https://acme.leading2lean.com/api/1.0/pitchdetails/record_details/"%string /\
      dict_get (payload w) "linecode" = Some (PyStr "L1") /\
      dict_get (payload w) "productcode" = Some (PyStr "P-7") /\
      dict_get (payload w) "scrap" = Some (PyInt 1) /\
      dict_get (payload w) "actual" = None).
Proof.
  split.
  - apply (proj1 (click_with_order_and_product_writes_once nat
                    (table_http api_current) sample_now single_01
                    (PyStr "GreenMachine") machine_L1 (PyStr "L1") order_7
                    (PyInt 7) product_7 (PyStr "P-7") 0%nat
                    eq_refl eq_refl eq_refl eq_refl eq_refl eq_refl eq_refl
                    eq_refl)).
    reflexivity.
  - apply (proj2 (click_with_order_and_product_writes_once nat
                    (table_http api_current) sample_now double_01
                    (PyStr "GreenMachine") machine_L1 (PyStr "L1") order_7
                    (PyInt 7) product_7 (PyStr "P-7") 0%nat
                    eq_refl eq_refl eq_refl eq_refl eq_refl eq_refl eq_refl
                    eq_refl)).
    reflexivity.
Defined.

(** C2 on a single click of the first button, whose line has no current
    and no scheduled order. *)
Lemma click_without_order_fails_without_write_witness :
  exists handler,
    methods_get (methods (table_http api_no_order) sample_now) "SINGLE"
    = Ok handler /\
    value (handler green 0%nat)
    = Ok (PyDict [("success", PyBool false);
                  ("error", PyStr "No order found")]) /\
    writes (calls (handler green 0%nat)) = [] /\
    writes (calls (lambda_handler (table_http api_no_order) sample_now
                     single_01 0%nat)) = [].
Proof.
  apply (click_without_order_fails_without_write nat
           (table_http api_no_order) sample_now single_01
           (PyStr "GreenMachine") machine_L1 (PyStr "L1") PyNone 0%nat);
    try reflexivity.
  left. reflexivity.
Defined.

(** C8 on a single click that finds no order: the failure of the handler
    is not in the response. *)
Lemma lambda_handler_discards_action_result_witness :
  value (lambda_handler (table_http api_no_order) sample_now single_01 0%nat)
  = Ok (PyDict [("statusCode", PyInt 200);
                ("body",
                 PyStr "SINGLE event run for button BUTTON-01-SERIAL")]).
Proof.
  apply (lambda_handler_discards_action_result nat
           (table_http api_no_order) sample_now single_01
           (PyStr "GreenMachine")
           (executeIncrementProductCountByMachineCode
              (table_http api_no_order) sample_now)
           0%nat
           (PyDict [("success", PyBool false);
                    ("error", PyStr "No order found")]));
    reflexivity.
Defined.

(** C9 on a double click of the first button. *)
Lemma lambda_handler_runs_one_handler_witness :
  calls (lambda_handler (table_http api_current) sample_now double_01 0%nat)
  = calls (executeIncrementScrapCountByMachineCode (table_http api_current)
             sample_now green 0%nat) /\
  value (lambda_handler (table_http api_current) sample_now double_01 0%nat)
  = Ok (PyDict [("statusCode", PyInt 200);
                ("body",
                 PyStr "DOUBLE event run for button BUTTON-01-SERIAL")]).
Proof.
  destruct (lambda_handler_runs_one_handler nat (table_http api_current)
              sample_now double_01 (PyStr "GreenMachine") 0%nat eq_refl
              (or_intror (or_introl eq_refl)))
    as (handler & Hh & Hc & _ & Hv & _).
  destruct Hh as [[E _]|[[_ ->]|[E _]]]; [discriminate E | | discriminate E].
  split; [exact Hc |].
  apply (Hv (PyDict [("success", PyBool true); ("result", pitch_1)])).
  reflexivity.
Defined.

(** C10 on a line that the API does not find, and on a line without
    scheduled orders. *)
Lemma no_line_is_no_order_witness :
  (value (getNextOrderByLineCode (table_http api_no_line) (PyStr "L1") 2%nat)
   = Ok PyNone /\
   calls (getNextOrderByLineCode (table_http api_no_line) (PyStr "L1") 2%nat)
   = [line_query (PyStr "L1")]) /\
  value (getNextOrderByLineCode (table_http api_no_order) (PyStr "L1") 2%nat)
  = Ok PyNone /\
  (exists handler,
      methods_get (methods (table_http api_no_line) sample_now) "DOUBLE"
      = Ok handler /\
      value (handler green 0%nat)
      = Ok (PyDict [("success", PyBool false);
                    ("error", PyStr "No order found")]) /\
      writes (calls (handler green 0%nat)) = []).
Proof.
  destruct (no_line_is_no_order nat (table_http api_no_line) sample_now)
    as (H1 & _ & H3).
  destruct (no_line_is_no_order nat (table_http api_no_order) sample_now)
    as (_ & H2 & _).
  split; [| split].
  - apply (H1 (PyStr "L1") 2%nat PyNone); reflexivity.
  - apply (H2 (PyStr "L1") 2%nat line_L1 (PyInt 3)
             [("success", PyBool true); ("data", PyList [])] 4%nat);
      reflexivity.
  - apply (H3 double_01 (PyStr "GreenMachine") machine_L1 (PyStr "L1")
             PyNone PyNone 0%nat); try reflexivity.
    right. reflexivity.
Defined.

(** * Concrete runs of the further properties *)

(** X3 on a list, a record, a string and a number as [data]. *)
Lemma finishRequest_truthy_data_witness :
  finishRequest (found [order_7; order_8]) 1 = Ok order_7 /\
  finishRequest
    (Body (PyDict [("success", PyInt 1); ("data", order_7)])) 1
  = Ok order_7 /\
  finishRequest
    (Body (PyDict [("success", PyBool true); ("data", PyInt 5)])) 1
  = Raise TypeError /\
  finishRequest
    (Body (PyDict [("success", PyBool true); ("data", PyInt 5)])) 2
  = Ok (PyInt 5).
Proof.
  split; [| split; [| split]].
  - apply (finishRequest_truthy_data
             [("success", PyBool true); ("data", PyList [order_7; order_8])]
             (PyBool true) (PyList [order_7; order_8]) 1); reflexivity.
  - apply (finishRequest_truthy_data
             [("success", PyInt 1); ("data", order_7)]
             (PyInt 1) order_7 1); reflexivity.
  - apply (finishRequest_truthy_data
             [("success", PyBool true); ("data", PyInt 5)]
             (PyBool true) (PyInt 5) 1); reflexivity.
  - apply (finishRequest_truthy_data
             [("success", PyBool true); ("data", PyInt 5)]
             (PyBool true) (PyInt 5) 2); reflexivity.
Defined.

(** X4 on an envelope whose [data] is missing. *)
Lemma finishRequest_raises_witness :
  exists d success,
    Body (PyDict [("success", PyBool true)]) = Body (PyDict d) /\
    dict_get d "success" = Some success /\
    truthy success = true /\ dict_get d "data" = None /\
    KeyError "data" = KeyError "data".
Proof.
  destruct (finishRequest_raises (Body (PyDict [("success", PyBool true)]))
              1 (KeyError "data") eq_refl)
    as [[H _]|[(j & _ & _ & H)|[(d & _ & _ & H)|[H|(d & b & x & H)]]]].
  - discriminate H.
  - discriminate H.
  - discriminate H.
  - exact H.
  - destruct H as (_ & _ & _ & _ & _ & _ & _ & H). discriminate H.
Defined.

(** X5 on the first machine, accepted by the API or not, and on a
    [thingData] without a machine code. *)
Lemma executeIncrementMachineCycleCountByMachineCode_run_witness :
  executeIncrementMachineCycleCountByMachineCode (table_http api_rejecting)
    green 0%nat
  = mkOutcome (Ok (PyDict [("success", PyBool true); ("result", PyNone)]))
      1%nat [increment_cycle_count (PyStr "GreenMachine")] /\
  executeIncrementMachineCycleCountByMachineCode (table_http api_rejecting)
    (PyDict []) 0%nat
  = mkOutcome (Raise (KeyError "machineCode")) 0%nat [].
Proof.
  split.
  - apply (proj1 (executeIncrementMachineCycleCountByMachineCode_run nat
                    (table_http api_rejecting) green 0%nat)
             (PyStr "GreenMachine")).
    reflexivity.
  - apply (proj2 (executeIncrementMachineCycleCountByMachineCode_run nat
                    (table_http api_rejecting) (PyDict []) 0%nat)
             (KeyError "machineCode")).
    reflexivity.
Defined.

(** X6 on a dispatch that the API rejects. *)
Lemma executeLaunchCodeRedDispatchByMachineCode_rejected_witness :
  executeLaunchCodeRedDispatchByMachineCode (table_http api_rejecting)
    green 0%nat
  = mkOutcome (Ok (PyDict [("success", PyBool true); ("result", PyNone)]))
      1%nat [open_dispatch (PyStr "GreenMachine")].
Proof.
  apply (executeLaunchCodeRedDispatchByMachineCode_rejected nat
           (table_http api_rejecting) green (PyStr "GreenMachine") 0%nat
           [("success", PyBool false); ("error", PyStr "not found")]
           (PyBool false) 1%nat);
    reflexivity.
Defined.

(** X7 on a triple click of the first button. *)
Lemma lambda_handler_unknown_clickType_witness :
  lambda_handler (table_http api_current) sample_now
    (mkEvent "BUTTON-01-SERIAL" "TRIPLE") 0%nat
  = mkOutcome (Raise (KeyError "TRIPLE")) 0%nat [].
Proof.
  apply (lambda_handler_unknown_clickType nat (table_http api_current)
           sample_now (mkEvent "BUTTON-01-SERIAL" "TRIPLE")
           (PyStr "GreenMachine") 0%nat);
    [reflexivity | discriminate | discriminate | discriminate].
Defined.

(** X8 on a single click that finds no order. *)
Lemma lambda_handler_returns_only_200_witness :
  exists code handler action_result,
    dict_get machineCodeLineMatrix "BUTTON-01-SERIAL" = Some code /\
    ("SINGLE" = "SINGLE" \/ "SINGLE" = "DOUBLE" \/ "SINGLE" = "LONG")%string /\
    methods_get (methods (table_http api_no_order) sample_now) "SINGLE"
    = Ok handler /\
    value (handler (PyDict [("machineCode", code)]) 0%nat) = Ok action_result.
Proof.
  apply (proj2 (lambda_handler_returns_only_200 nat
                  (table_http api_no_order) sample_now single_01 0%nat
                  (PyDict [("statusCode", PyInt 200);
                           ("body",
                            PyStr "SINGLE event run for button BUTTON-01-SERIAL")])
                  eq_refl)).
Defined.

(** X9 on a double and a long click with nothing behind the URL. *)
Lemma lambda_handler_api_unreachable_witness :
  (value (lambda_handler (table_http api_unreachable) sample_now
            double_01 0%nat) = Raise RequestException /\
   calls (lambda_handler (table_http api_unreachable) sample_now
            double_01 0%nat) = [machine_query (PyStr "GreenMachine")]) /\
  (value (lambda_handler (table_http api_unreachable) sample_now
            long_01 0%nat) = Raise RequestException /\
   calls (lambda_handler (table_http api_unreachable) sample_now
            long_01 0%nat) = [open_dispatch (PyStr "GreenMachine")]).
Proof.
  split.
  - apply (proj1 (lambda_handler_api_unreachable nat
                    (table_http api_unreachable) sample_now
                    (fun q s => eq_refl)
                    double_01 (PyStr "GreenMachine") 0%nat eq_refl)).
    right. reflexivity.
  - apply (proj2 (lambda_handler_api_unreachable nat
                    (table_http api_unreachable) sample_now
                    (fun q s => eq_refl)
                    long_01 (PyStr "GreenMachine") 0%nat eq_refl)).
    reflexivity.
Defined.

(** X10 on a machine that the API does not find. *)
Lemma lambda_handler_machine_without_line_witness :
  value (lambda_handler (table_http api_no_machine) sample_now
           single_01 0%nat) = Raise TypeError /\
  calls (lambda_handler (table_http api_no_machine) sample_now
           single_01 0%nat) = [machine_query (PyStr "GreenMachine")].
Proof.
  apply (lambda_handler_machine_without_line nat (table_http api_no_machine)
           sample_now single_01 (PyStr "GreenMachine") PyNone TypeError
           0%nat);
    try reflexivity.
  left. reflexivity.
Defined.


(** X12 on a line record that has no [id]. *)
Lemma getOrderByLineCode_line_without_id_witness :
  value (getOrderByLineCode (table_http api_line_without_id) (PyStr "L1")
           1%nat) = Raise (KeyError "id") /\
  calls (getOrderByLineCode (table_http api_line_without_id) (PyStr "L1")
           1%nat)
  = [current_order_query (PyStr "L1"); line_query (PyStr "L1")].
Proof.
  apply (getOrderByLineCode_line_without_id nat
           (table_http api_line_without_id) (PyStr "L1") 1%nat PyNone
           (PyDict [("code", PyStr "L1")]) (KeyError "id"));
    reflexivity.
Defined.

(** X13 on a single click that writes. *)
Lemma click_writes_only_when_resolved_witness :
  exists mi lc order id product productcode,
    value (getMachineInfoByCode (table_http api_current)
             (PyStr "GreenMachine") 0%nat) = Ok mi /\
    subscript mi "linecode" = Ok lc /\
    value (getOrderByLineCode (table_http api_current) lc
             (final (getMachineInfoByCode (table_http api_current)
                       (PyStr "GreenMachine") 0%nat))) = Ok order /\
    truthy order = true /\
    subscript order "product" = Ok id /\
    value (getProductInfoById (table_http api_current) id
             (final (getOrderByLineCode (table_http api_current) lc
                       (final (getMachineInfoByCode (table_http api_current)
                                 (PyStr "GreenMachine") 0%nat)))))
    = Ok product /\
    subscript product "code" = Ok productcode.
Proof.
  apply (click_writes_only_when_resolved nat (table_http api_current)
           sample_now single_01 (PyStr "GreenMachine") 0%nat).
  - left. reflexivity.
  - reflexivity.
  - vm_compute. discriminate.
Defined.

(** X14 on a single click: the two stamps differ by the reading. *)
Lemma click_write_is_stamped_twice_witness :
  writes (calls (lambda_handler (table_http api_current) sample_now
                   single_01 0%nat))
  = [record_details (PyStr "L1") (PyStr "2026-11-04 12:00:03")
       (PyStr "2026-11-04 12:00:04") (PyStr "P-7") "actual"].
Proof.
  apply (proj1 (click_write_is_stamped_twice nat (table_http api_current)
                  sample_now single_01 (PyStr "GreenMachine") machine_L1
                  (PyStr "L1") order_7 (PyInt 7) product_7 (PyStr "P-7")
                  0%nat
                  eq_refl eq_refl eq_refl eq_refl eq_refl eq_refl eq_refl
                  eq_refl)).
  reflexivity.
Defined.

(** X15 on a caller that passes its own [limit]. *)
Lemma doGet_doPost_payload_witness :
  exists q,
    calls (doGet (table_http api_current) "machines/"
             [("limit", PyInt 5); ("code", PyStr "GreenMachine")] 1 0%nat)
    = [q] /\
    meth q = GET /\
    url q = "https://acme.leading2lean.com/api/1.0/machines/"%string /\
    forall k,
      dict_get (payload q) k
      = match dict_get [("limit", PyInt 5); ("code", PyStr "GreenMachine")] k
        with
        | Some v => Some v
        | None =>
            dict_get [("auth", PyStr "abc123"); ("site", PyStr "1");
                      ("limit", PyInt 1)] k
        end.
Proof.
  apply (proj1 (doGet_doPost_payload nat (table_http api_current)
                  "machines/"
                  [("limit", PyInt 5); ("code", PyStr "GreenMachine")]
                  1 0%nat
                  ltac:(repeat constructor; simpl; intuition discriminate))).
Defined.
